(** * Zenmanage JavaScript SDK: the evaluation pipeline

    A shallow embedding of the cache layer ([cache/memory-cache.ts],
    [cache/null-cache.ts]), the rule engine ([rule-engine.ts]), the flag
    value object ([flag.ts]), the defaults collection
    ([defaults-collection.ts]) and the flag manager ([flag-manager.ts]),
    followed by the properties of the pipeline.

    JavaScript [Map]s are [gmap]s, arrays are lists, optional fields are
    [option]s, and an object whose set of keys matters (the value
    envelope) is the list of its own properties in enumeration order.
    Code that mutates [this] or throws is written in a state-and-error
    monad.  The language built-ins on numbers are an interface
    ([JsNumber]); every theorem holds for each implementation of it. *)

From Stdlib Require Import ZArith Ascii String List Bool.
From stdpp Require Import gmap strings pretty.

Local Open Scope string_scope.
Local Open Scope list_scope.

(** ** JavaScript numbers and the built-ins that produce or inspect them *)

Class JsNumber := {
  number : Type;
  num_of_Z : Z -> number;                       (* an integer literal *)
  num_nan : number;                             (* NaN *)
  num_add : number -> number -> number;         (* a + b *)
  num_mul : number -> number -> number;         (* a * b *)
  num_lt : number -> number -> bool;            (* a < b *)
  num_le : number -> number -> bool;            (* a <= b *)
  num_gt : number -> number -> bool;            (* a > b *)
  num_ge : number -> number -> bool;            (* a >= b *)
  isNaN : number -> bool;
  parseFloat : string -> number;
  Number_of_string : string -> number;          (* Number(s) *)
  String_of_number : number -> string;          (* String(n) *)
  Boolean_of_number : number -> bool;           (* Boolean(n) *)
}.

(** ** An implementation of the number built-ins

    Numbers as exact decimals [m * 10^e] with NaN and the infinities.
    Literals are read and printed by the grammar of the language
    ([parseFloat] reads the longest numeric prefix, [Number] the whole
    trimmed string, [String] prints in plain notation between 1e-7 and
    1e21 and in exponent notation outside).  Arithmetic is exact where
    the language rounds to binary64, so the two agree on values that
    binary64 holds exactly.  It serves to run the definitions on
    concrete inputs. *)

Module DecNumber.

Inductive dec :=
| NaN
| Inf (negative : bool)
| Fin (m e : Z).

Definition of_Z (z : Z) : dec := Fin z 0.

(** Mantissas of two finite decimals at their common exponent. *)
Definition align (m1 e1 m2 e2 : Z) : Z * Z * Z :=
  let e := Z.min e1 e2 in
  (m1 * 10 ^ (e1 - e), m2 * 10 ^ (e2 - e), e)%Z.

Definition add (a b : dec) : dec :=
  match a, b with
  | NaN, _ | _, NaN => NaN
  | Inf s1, Inf s2 => if Bool.eqb s1 s2 then Inf s1 else NaN
  | Inf s, Fin _ _ | Fin _ _, Inf s => Inf s
  | Fin m1 e1, Fin m2 e2 =>
      let '(n1, n2, e) := align m1 e1 m2 e2 in Fin (n1 + n2) e
  end.

Definition mul (a b : dec) : dec :=
  match a, b with
  | NaN, _ | _, NaN => NaN
  | Inf s1, Inf s2 => Inf (xorb s1 s2)
  | Inf s, Fin m _ | Fin m _, Inf s =>
      if (m =? 0)%Z then NaN else Inf (xorb s (m <? 0)%Z)
  | Fin m1 e1, Fin m2 e2 => Fin (m1 * m2) (e1 + e2)
  end.

(** The order on numbers; [None] when an operand is NaN. *)
Definition compare (a b : dec) : option comparison :=
  match a, b with
  | NaN, _ | _, NaN => None
  | Inf s1, Inf s2 =>
      Some (if Bool.eqb s1 s2 then Eq else if s1 then Lt else Gt)
  | Inf s, Fin _ _ => Some (if s then Lt else Gt)
  | Fin _ _, Inf s => Some (if s then Gt else Lt)
  | Fin m1 e1, Fin m2 e2 =>
      let '(n1, n2, _) := align m1 e1 m2 e2 in Some (n1 ?= n2)%Z
  end.

Definition lt a b := match compare a b with Some Lt => true | _ => false end.
Definition le a b := match compare a b with Some (Lt | Eq) => true | _ => false end.
Definition gt a b := match compare a b with Some Gt => true | _ => false end.
Definition ge a b := match compare a b with Some (Gt | Eq) => true | _ => false end.

Definition is_nan (a : dec) : bool :=
  match a with NaN => true | _ => false end.

Definition to_boolean (a : dec) : bool :=
  match a with
  | NaN => false
  | Inf _ => true
  | Fin m _ => negb (m =? 0)%Z
  end.

(** *** Reading literals *)

(** White space, of which strings of bytes have the ASCII part. *)
Definition is_space (c : ascii) : bool :=
  let n := nat_of_ascii c in
  ((9 <=? n) && (n <=? 13) || (n =? 32))%nat.

Fixpoint skip_spaces (s : string) : string :=
  match s with
  | String c r => if is_space c then skip_spaces r else s
  | EmptyString => s
  end.

Definition digit_of (base : nat) (c : ascii) : option Z :=
  let n := nat_of_ascii c in
  let d :=
    if ((48 <=? n) && (n <=? 57))%nat then Some (n - 48)%nat
    else if ((97 <=? n) && (n <=? 102))%nat then Some (n - 87)%nat
    else if ((65 <=? n) && (n <=? 70))%nat then Some (n - 55)%nat
    else None in
  match d with
  | Some d => if (d <? base)%nat then Some (Z.of_nat d) else None
  | None => None
  end.

(** Reads digits of [base] onto [acc]: the value, how many were read,
    and the rest of the string. *)
Fixpoint digits (base : nat) (s : string) (acc : Z) (n : Z) : Z * Z * string :=
  match s with
  | String c r =>
      match digit_of base c with
      | Some d => digits base r (acc * Z.of_nat base + d)%Z (n + 1)%Z
      | None => (acc, n, s)
      end
  | EmptyString => (acc, n, s)
  end.

Definition sign_of (s : string) : bool * string :=
  match s with
  | String "-" r => (true, r)
  | String "+" r => (false, r)
  | _ => (false, s)
  end.

(** The exponent part [e[+-]digits]; absent unless it has a digit. *)
Definition exponent (s : string) : Z * string :=
  match s with
  | String c r =>
      if (Ascii.eqb c "e" || Ascii.eqb c "E")%bool then
        let '(neg, r') := sign_of r in
        let '(v, n, rest) := digits 10 r' 0 0 in
        if (n =? 0)%Z then (0%Z, s) else ((if neg then - v else v)%Z, rest)
      else (0%Z, s)
  | EmptyString => (0%Z, s)
  end.

(** An unsigned decimal literal at the head of [s]. *)
Definition unsigned_literal (s : string) : option (dec * string) :=
  if String.prefix "Infinity" s then
    Some (Inf false, String.substring 8 (String.length s - 8) s)
  else
    let '(iv, ni, r1) := digits 10 s 0 0 in
    let '(mv, nf, r2) :=
      match r1 with
      | String "." r => digits 10 r iv 0
      | _ => (iv, 0%Z, r1)
      end in
    if ((ni =? 0) && (nf =? 0))%Z then None
    else
      let '(ex, r3) := exponent r2 in
      Some (Fin mv (ex - nf), r3).

Definition negate (neg : bool) (a : dec) : dec :=
  if neg then
    match a with
    | NaN => NaN
    | Inf s => Inf (negb s)
    | Fin m e => Fin (- m) e
    end
  else a.

(** A signed decimal literal at the head of [s]. *)
Definition literal (s : string) : option (dec * string) :=
  let '(neg, r) := sign_of s in
  match unsigned_literal r with
  | Some (a, rest) => Some (negate neg a, rest)
  | None => None
  end.

Definition parse_float (s : string) : dec :=
  match literal (skip_spaces s) with
  | Some (a, _) => a
  | None => NaN
  end.

(** [0x], [0o] and [0b] literals: all of [s] after the prefix. *)
Definition radix_literal (s : string) : option dec :=
  match s with
  | String "0" (String c r) =>
      let base :=
        if (Ascii.eqb c "x" || Ascii.eqb c "X")%bool then Some 16%nat
        else if (Ascii.eqb c "o" || Ascii.eqb c "O")%bool then Some 8%nat
        else if (Ascii.eqb c "b" || Ascii.eqb c "B")%bool then Some 2%nat
        else None in
      match base with
      | Some b =>
          let '(v, n, rest) := digits b r 0 0 in
          if ((0 <? n)%Z && String.eqb rest "")%bool then Some (Fin v 0) else None
      | None => None
      end
  | _ => None
  end.

Definition rev_string (s : string) : string :=
  string_of_list_ascii (List.rev (list_ascii_of_string s)).

(** The string without the white space at its two ends. *)
Definition trim (s : string) : string :=
  rev_string (skip_spaces (rev_string (skip_spaces s))).

Definition to_number (s : string) : dec :=
  let t := trim s in
  if String.eqb t "" then Fin 0 0
  else
    match radix_literal t with
    | Some a => a
    | None =>
        match literal t with
        | Some (a, EmptyString) => a
        | _ => NaN
        end
    end.

(** *** Printing *)

Fixpoint zeros (n : nat) : string :=
  match n with
  | O => ""
  | S n => String "0" (zeros n)
  end.

(** Removes the leading zeros of [s] and counts them. *)
Fixpoint strip_zeros (s : string) (n : Z) : string * Z :=
  match s with
  | String "0" r => strip_zeros r (n + 1)%Z
  | _ => (s, n)
  end.

Definition print_Z (z : Z) : string := pretty (Z.abs z).

Definition to_string (a : dec) : string :=
  match a with
  | NaN => "NaN"
  | Inf false => "Infinity"
  | Inf true => "-Infinity"
  | Fin m e =>
      if (m =? 0)%Z then "0"
      else
        let '(rs, removed) := strip_zeros (rev_string (print_Z m)) 0 in
        let ds := rev_string rs in
        let k := Z.of_nat (String.length ds) in
        let n := (k + (e + removed))%Z in
        let body :=
          if ((k <=? n) && (n <=? 21))%Z then
            ds +:+ zeros (Z.to_nat (n - k))
          else if ((0 <? n) && (n <=? 21))%Z then
            String.substring 0 (Z.to_nat n) ds +:+ "." +:+
            String.substring (Z.to_nat n) (Z.to_nat (k - n)) ds
          else if ((-6 <? n) && (n <=? 0))%Z then
            "0." +:+ zeros (Z.to_nat (- n)) +:+ ds
          else
            let x := (n - 1)%Z in
            let ex := (if (x <? 0)%Z then "e-" else "e+") +:+ print_Z x in
            if (k =? 1)%Z then ds +:+ ex
            else String.substring 0 1 ds +:+ "." +:+
                 String.substring 1 (Z.to_nat (k - 1)) ds +:+ ex in
        (if (m <? 0)%Z then "-" else "") +:+ body
  end.

#[export] Instance js_number : JsNumber := {
  number := dec;
  num_of_Z := of_Z;
  num_nan := NaN;
  num_add := add;
  num_mul := mul;
  num_lt := lt;
  num_le := le;
  num_gt := gt;
  num_ge := ge;
  isNaN := is_nan;
  parseFloat := parse_float;
  Number_of_string := to_number;
  String_of_number := to_string;
  Boolean_of_number := to_boolean;
}.

End DecNumber.

(** ** String methods used by the rule engine *)

Module JsString.

(** [v.startsWith(t)] *)
Definition startsWith (v t : string) : bool := String.prefix t v.

(** [v.includes(t)]: [t] occurs in [v] at some position. *)
Fixpoint includes (v t : string) : bool :=
  startsWith v t ||
  match v with
  | EmptyString => false
  | String _ v' => includes v' t
  end.

(** [v.endsWith(t)]: some suffix of [v] is [t]. *)
Fixpoint endsWith (v t : string) : bool :=
  String.eqb v t ||
  match v with
  | EmptyString => false
  | String _ v' => endsWith v' t
  end.

End JsString.

(** ** Values *)

Section Values.
Context `{JsNumber}.

(** The values a property of a value envelope can hold at run time. *)
Inductive JsValue :=
| JsUndefined
| JsBool (b : bool)
| JsStr (s : string)
| JsNum (n : number).

(** [Boolean(x)] *)
Definition ToBoolean (x : JsValue) : bool :=
  match x with
  | JsUndefined => false
  | JsBool b => b
  | JsStr s => negb (String.eqb s "")
  | JsNum n => Boolean_of_number n
  end.

(** [String(x)] *)
Definition ToString (x : JsValue) : string :=
  match x with
  | JsUndefined => "undefined"
  | JsBool true => "true"
  | JsBool false => "false"
  | JsStr s => s
  | JsNum n => String_of_number n
  end.

(** [Number(x)] *)
Definition ToNumber (x : JsValue) : number :=
  match x with
  | JsUndefined => num_nan
  | JsBool true => num_of_Z 1
  | JsBool false => num_of_Z 0
  | JsStr s => Number_of_string s
  | JsNum n => n
  end.

(** [types.ts]: [FlagValue = boolean | string | number]. *)
Inductive FlagValue :=
| FVBool (b : bool)
| FVString (s : string)
| FVNumber (n : number).

Definition FlagValue_to_js (v : FlagValue) : JsValue :=
  match v with
  | FVBool b => JsBool b
  | FVString s => JsStr s
  | FVNumber n => JsNum n
  end.

(** The object [{ boolean?, string?, number? }]: its own properties in
    enumeration order.  Property names are unique in an object. *)
Definition Envelope := list (string * JsValue).

(** ['k' in value] *)
Definition has_key (k : string) (o : Envelope) : bool :=
  existsb (fun p => String.eqb (fst p) k) o.

(** [value.k] *)
Definition get_prop (k : string) (o : Envelope) : JsValue :=
  match List.find (fun p => String.eqb (fst p) k) o with
  | Some p => snd p
  | None => JsUndefined
  end.

(** [Object.values(value)[0]] *)
Definition first_value (o : Envelope) : JsValue :=
  match o with
  | [] => JsUndefined
  | p :: _ => snd p
  end.

Definition is_undefined (x : JsValue) : bool :=
  match x with JsUndefined => true | _ => false end.

(** [{ version?, value: { boolean?, string?, number? } }] *)
Record ValueBox := {
  vb_version : option string;
  vb_value : Envelope;
}.

(** [string | null] under an optional key: [None] is undefined,
    [Some None] is null. *)
Definition Timestamp := option (option string).

(** [types.ts]: [FlagTarget]. *)
Record FlagTarget := {
  target_version : option string;
  expired_at : Timestamp;
  published_at : Timestamp;
  scheduled_at : Timestamp;
  target_value : ValueBox;
}.

(** [types.ts]: [RuleCondition]; [value] is a string or an array. *)
Inductive ClauseValue :=
| CVString (s : string)
| CVArray (l : list string).

Record RuleCondition := {
  attribute : string;
  operator : string;
  clause_value : option ClauseValue;
}.

(** [types.ts]: [Rule]. *)
Record Rule := {
  rule_version : option string;
  description : option string;
  criteria : option RuleCondition;
  clauses : option (list RuleCondition);
  position : option number;
  rule_value : ValueBox;
}.

(** [types.ts]: [FlagData], a flag as the rule-set document has it. *)
Record FlagData := {
  fd_version : string;
  fd_type : string;
  fd_key : string;
  fd_name : string;
  fd_target : FlagTarget;
  fd_rules : option (list Rule);
}.

(** [types.ts]: [RulesResponse]. *)
Record RulesResponse := {
  rr_version : string;
  rr_flags : list FlagData;
}.

(** *** [flag.ts]: class [Flag] *)

Record Flag := {
  getVersion : string;
  getType : string;
  getKey : string;
  getName : string;
  getTarget : FlagTarget;
  getRules : list Rule;
}.

(** [this.target.value.value] *)
Definition envelope (f : Flag) : Envelope :=
  vb_value (target_value (getTarget f)).

Definition isEnabled (f : Flag) : bool :=
  if negb (String.eqb (getType f) "boolean") then false
  else
    let value := envelope f in
    if has_key "boolean" value then ToBoolean (get_prop "boolean" value)
    else true (* [Boolean(value)] of an object *).

Definition asBool (f : Flag) : bool :=
  let value := envelope f in
  if has_key "boolean" value then ToBoolean (get_prop "boolean" value)
  else if has_key "number" value then ToBoolean (get_prop "number" value)
  else if has_key "string" value then ToBoolean (get_prop "string" value)
  else ToBoolean (first_value value).

Definition asString (f : Flag) : string :=
  let value := envelope f in
  if has_key "string" value then ToString (get_prop "string" value)
  else if has_key "boolean" value then ToString (get_prop "boolean" value)
  else if has_key "number" value then ToString (get_prop "number" value)
  else
    let firstValue := first_value value in
    if negb (is_undefined firstValue) then ToString firstValue else "".

(** [isNaN(parsed) ? 0 : parsed] *)
Definition or_zero (parsed : number) : number :=
  if isNaN parsed then num_of_Z 0 else parsed.

Definition asNumber (f : Flag) : number :=
  let value := envelope f in
  if has_key "number" value then ToNumber (get_prop "number" value)
  else if has_key "string" value then
    or_zero (parseFloat (ToString (get_prop "string" value)))
  else if has_key "boolean" value then
    if ToBoolean (get_prop "boolean" value) then num_of_Z 1 else num_of_Z 0
  else
    let firstValue := first_value value in
    if is_undefined firstValue then num_of_Z 0
    else or_zero (parseFloat (ToString firstValue)).

Definition getValue (f : Flag) : JsValue :=
  let value := envelope f in
  if has_key "boolean" value then get_prop "boolean" value
  else if has_key "string" value then get_prop "string" value
  else if has_key "number" value then get_prop "number" value
  else
    let firstValue := first_value value in
    if negb (is_undefined firstValue) then firstValue else JsStr "".

(** [Flag.fromObject]: [data.rules || []] *)
Definition fromObject (data : FlagData) : Flag :=
  {| getVersion := fd_version data;
     getType := fd_type data;
     getKey := fd_key data;
     getName := fd_name data;
     getTarget := fd_target data;
     getRules := match fd_rules data with Some rs => rs | None => [] end |}.

End Values.

(** ** [context.ts] *)

(** [class Value] *)
Record Value := { value : string }.

(** [class Attribute] *)
Record Attribute := {
  key : string;
  values : list Value;
}.

Definition new_Attribute (key : string) (values : list string) : Attribute :=
  {| key := key; values := map Build_Value values |}.

Definition getValues (a : Attribute) : list string :=
  map value (values a).

Definition addValue (a : Attribute) (v : string) : Attribute :=
  {| key := key a; values := values a ++ [Build_Value v] |}.

(** [class Context]; [attributes] is a [Map<string, Attribute>]. *)
Record Context := {
  ctx_type : string;
  ctx_name : option string;
  ctx_identifier : option string;
  attributes : gmap string Attribute;
}.

Definition addAttribute (c : Context) (a : Attribute) : Context :=
  {| ctx_type := ctx_type c;
     ctx_name := ctx_name c;
     ctx_identifier := ctx_identifier c;
     attributes := <[key a := a]> (attributes c) |}.

Definition new_Context (type : string) (name identifier : option string)
    (attrs : list Attribute) : Context :=
  fold_left addAttribute attrs
    {| ctx_type := type; ctx_name := name; ctx_identifier := identifier;
       attributes := ∅ |}.

Definition getAttribute (c : Context) (k : string) : option Attribute :=
  attributes c !! k.

Definition hasAttribute (c : Context) (k : string) : bool :=
  bool_decide (is_Some (attributes c !! k)).

(** ** [rule-engine.ts]: class [RuleEngine] *)

Module RuleEngine.
Section RuleEngine.
Context `{JsNumber}.

(** [Array.isArray(clauseValue) ? clauseValue[0] : clauseValue]: a
    string, or undefined ([None]) for the first element of an empty
    array. *)
Definition target_of (clauseValue : ClauseValue) : option string :=
  match clauseValue with
  | CVString s => Some s
  | CVArray l => head l
  end.

(** A [target] passed where the built-in expects a string is converted
    with ToString. *)
Definition str (target : option string) : string :=
  match target with
  | Some s => s
  | None => "undefined"
  end.

(** [v === target] *)
Definition strict_eq (v : string) (target : option string) : bool :=
  match target with
  | Some t => String.eqb v t
  | None => false
  end.

Definition evaluateEquals (values : list string)
    (clauseValue : option ClauseValue) : bool :=
  match clauseValue with
  | None => false
  | Some cv =>
      let target := target_of cv in
      existsb (fun v => strict_eq v target) values
  end.

Definition evaluateContains (values : list string)
    (clauseValue : option ClauseValue) : bool :=
  match clauseValue with
  | None => false
  | Some cv =>
      let target := target_of cv in
      existsb (fun v => JsString.includes v (str target)) values
  end.

Definition evaluateIn (values : list string)
    (clauseValue : option ClauseValue) : bool :=
  match clauseValue with
  | None => false
  | Some cv =>
      let targets := match cv with CVArray l => l | CVString s => [s] end in
      existsb (fun v => existsb (String.eqb v) targets) values
  end.

Definition evaluateStartsWith (values : list string)
    (clauseValue : option ClauseValue) : bool :=
  match clauseValue with
  | None => false
  | Some cv =>
      let target := target_of cv in
      existsb (fun v => JsString.startsWith v (str target)) values
  end.

Definition evaluateEndsWith (values : list string)
    (clauseValue : option ClauseValue) : bool :=
  match clauseValue with
  | None => false
  | Some cv =>
      let target := target_of cv in
      existsb (fun v => JsString.endsWith v (str target)) values
  end.

Definition evaluateGreaterThan (values : list string)
    (clauseValue : option ClauseValue) : bool :=
  match clauseValue with
  | None => false
  | Some cv =>
      let target := target_of cv in
      let targetNum := parseFloat (str target) in
      if isNaN targetNum then false
      else existsb (fun v =>
             let num := parseFloat v in
             negb (isNaN num) && num_gt num targetNum) values
  end.

Definition evaluateGreaterThanOrEqual (values : list string)
    (clauseValue : option ClauseValue) : bool :=
  match clauseValue with
  | None => false
  | Some cv =>
      let target := target_of cv in
      let targetNum := parseFloat (str target) in
      if isNaN targetNum then false
      else existsb (fun v =>
             let num := parseFloat v in
             negb (isNaN num) && num_ge num targetNum) values
  end.

Definition evaluateLessThan (values : list string)
    (clauseValue : option ClauseValue) : bool :=
  match clauseValue with
  | None => false
  | Some cv =>
      let target := target_of cv in
      let targetNum := parseFloat (str target) in
      if isNaN targetNum then false
      else existsb (fun v =>
             let num := parseFloat v in
             negb (isNaN num) && num_lt num targetNum) values
  end.

Definition evaluateLessThanOrEqual (values : list string)
    (clauseValue : option ClauseValue) : bool :=
  match clauseValue with
  | None => false
  | Some cv =>
      let target := target_of cv in
      let targetNum := parseFloat (str target) in
      if isNaN targetNum then false
      else existsb (fun v =>
             let num := parseFloat v in
             negb (isNaN num) && num_le num targetNum) values
  end.

Definition evaluateClause (clause : RuleCondition) (context : Context) : bool :=
  match getAttribute context (attribute clause) with
  | None => false
  | Some attribute =>
      let attributeValues := getValues attribute in
      let op := operator clause in
      let v := clause_value clause in
      if String.eqb op "equals" then evaluateEquals attributeValues v
      else if String.eqb op "not_equals" then negb (evaluateEquals attributeValues v)
      else if String.eqb op "contains" then evaluateContains attributeValues v
      else if String.eqb op "not_contains" then negb (evaluateContains attributeValues v)
      else if String.eqb op "in" then evaluateIn attributeValues v
      else if String.eqb op "not_in" then negb (evaluateIn attributeValues v)
      else if String.eqb op "starts_with" then evaluateStartsWith attributeValues v
      else if String.eqb op "ends_with" then evaluateEndsWith attributeValues v
      else if String.eqb op "gt" then evaluateGreaterThan attributeValues v
      else if String.eqb op "gte" then evaluateGreaterThanOrEqual attributeValues v
      else if String.eqb op "lt" then evaluateLessThan attributeValues v
      else if String.eqb op "lte" then evaluateLessThanOrEqual attributeValues v
      else false
  end.

Definition evaluateRule (rule : Rule) (context : Context) : bool :=
  match clauses rule with
  | Some (c :: cs) => forallb (fun clause => evaluateClause clause context) (c :: cs)
  | _ =>
      match criteria rule with
      | Some c => evaluateClause c context
      | None => true
      end
  end.

Fixpoint evaluate (rules : list Rule) (context : Context) : option Rule :=
  match rules with
  | [] => None
  | rule :: rest =>
      if evaluateRule rule context then Some rule else evaluate rest context
  end.

End RuleEngine.
End RuleEngine.

(** ** [cache/]: the [Cache] interface and its implementations

    Every operation of the interface is a state transformer on the
    store of the implementation; [now] is what [Date.now()] returns when
    the operation runs.  No implementation lets a storage failure
    escape (the filesystem one catches and logs it), so an operation
    always returns.  The filesystem implementation, a store of files,
    is not modelled. *)

Class Cache `{JsNumber} (C : Type) := {
  cache_get : string -> number -> C -> option string * C;
  cache_set : string -> string -> option number -> number -> C -> C;
  cache_has : string -> number -> C -> bool * C;
  cache_delete : string -> C -> C;
  cache_clear : C -> C;
}.

(** [cache/memory-cache.ts] *)
Module InMemoryCache.
Section InMemoryCache.
Context `{JsNumber}.

(** [{ value: string; expires: number | null }] *)
Record Item := {
  item_value : string;
  expires : option number;
}.

(** [storage: Map<string, Item>] *)
Abbreviation Storage := (gmap string Item).

Definition get (key : string) (now : number) (storage : Storage)
    : option string * Storage :=
  match storage !! key with
  | None => (None, storage)
  | Some item =>
      match expires item with
      | Some e =>
          if num_lt e now then (None, delete key storage)
          else (Some (item_value item), storage)
      | None => (Some (item_value item), storage)
      end
  end.

Definition set (key value : string) (ttl : option number) (now : number)
    (storage : Storage) : Storage :=
  let expires :=
    match ttl with
    | Some ttl => Some (num_add now (num_mul ttl (num_of_Z 1000)))
    | None => None
    end in
  <[key := {| item_value := value; expires := expires |}]> storage.

Definition has (key : string) (now : number) (storage : Storage)
    : bool * Storage :=
  let '(value, storage) := get key now storage in
  (match value with Some _ => true | None => false end, storage).

Definition delete (key : string) (storage : Storage) : Storage :=
  base.delete key storage.

Definition clear (storage : Storage) : Storage := ∅.

#[global] Instance cache : Cache Storage := {
  cache_get := get;
  cache_set := set;
  cache_has := has;
  cache_delete := delete;
  cache_clear := clear;
}.

End InMemoryCache.
End InMemoryCache.

(** [cache/null-cache.ts] *)
Module NullCache.
Section NullCache.
Context `{JsNumber}.

Definition get (_key : string) (_now : number) (c : unit) : option string * unit :=
  (None, c).
Definition set (_key _value : string) (_ttl : option number) (_now : number)
    (c : unit) : unit := c.
Definition has (_key : string) (_now : number) (c : unit) : bool * unit :=
  (false, c).
Definition delete (_key : string) (c : unit) : unit := c.
Definition clear (c : unit) : unit := c.

#[global] Instance cache : Cache unit := {
  cache_get := get;
  cache_set := set;
  cache_has := has;
  cache_delete := delete;
  cache_clear := clear;
}.

End NullCache.
End NullCache.

(** ** [defaults-collection.ts]: class [DefaultsCollection] *)

Module DefaultsCollection.
Section DefaultsCollection.
Context `{JsNumber}.

(** [defaults: Map<string, FlagValue>] *)
Abbreviation t := (gmap string FlagValue).

Definition empty : t := ∅.
Definition set (key : string) (v : FlagValue) (d : t) : t := <[key := v]> d.
Definition get (key : string) (d : t) : option FlagValue := d !! key.
Definition has (key : string) (d : t) : bool :=
  match d !! key with Some _ => true | None => false end.
Definition delete (key : string) (d : t) : bool * t :=
  (has key d, base.delete key d).
Definition clear (d : t) : t := ∅.
Definition size (d : t) : nat := base.size d.

(** [Object.entries(obj).forEach(([key, value]) => collection.set(key, value))] *)
Definition fromObject (obj : list (string * FlagValue)) : t :=
  fold_left (fun d kv => set (fst kv) (snd kv) d) obj empty.

End DefaultsCollection.
End DefaultsCollection.

(** ** [errors.ts] *)

Inductive Error :=
| ZenmanageError (message : string)
| ConfigurationError (message : string)
| EvaluationError (message : string)
| FetchRulesError (message : string) (statusCode : option Z)
| InvalidRulesError (message : string).

(** ** [flag-manager.ts]: class [FlagManager] *)

Module FlagManager.
Section FlagManager.
Context `{JsNumber} {C : Type} `{!Cache C}.

(** [JSON.stringify(response)] for a rule-set document. *)
Variable JSON_stringify : RulesResponse -> string.

(** [JSON.parse(cached)] followed by the test
    [data && Array.isArray(data.flags)]: [None] when parsing throws,
    [Some None] when the parsed value has no array [flags], and
    [Some (Some fs)] with the elements of [data.flags] otherwise. *)
Variable JSON_parse : string -> option (option (list FlagData)).

Definition CACHE_KEY : string := "zenmanage_rules".

(** The fields of a manager.  [flags] is [null] ([None]) until rules
    are loaded.  Of the API client only the usage-reporting switch is
    kept; the logger has no effect on the state and is left out. *)
Record t := {
  flags : option (list Flag);
  context : Context;
  defaults : gmap string FlagValue;
  enableUsageReporting : bool;
  cacheTtl : number;
}.

(** What a call can change: the manager itself, the cache it shares by
    reference, and the usage reports sent out so far. *)
Record World := {
  this : t;
  cache : C;
  usage : list (string * Context);
}.

(** What the surroundings supply during one call: the outcome of
    [apiClient.getRules()], and the clock when the cache is read and
    when it is written. *)
Record Env := {
  api_getRules : Error + RulesResponse;
  now_read : number;
  now_write : number;
}.

(** Computations that update the world and either return or throw. *)
Definition M (A : Type) : Type := World -> (Error + A) * World.

Definition ret {A} (a : A) : M A := fun w => (inr a, w).
Definition throw {A} (e : Error) : M A := fun w => (inl e, w).
Definition bind {A B} (m : M A) (k : A -> M B) : M B :=
  fun w =>
    match m w with
    | (inr a, w') => k a w'
    | (inl e, w') => (inl e, w')
    end.
Definition try_catch {A} (m : M A) (handler : Error -> M A) : M A :=
  fun w =>
    match m w with
    | (inr a, w') => (inr a, w')
    | (inl e, w') => handler e w'
    end.

Notation "x <- m ;; k" := (bind m (fun x => k))
  (at level 100, m at next level, right associativity).
Notation "m ;; k" := (bind m (fun _ => k))
  (at level 100, right associativity).

Definition get_this : M t := fun w => (inr (this w), w).

(** [this.flags = fs] *)
Definition set_flags (fs : list Flag) : M unit :=
  fun w =>
    let m := this w in
    (inr tt,
     {| this := {| flags := Some fs; context := context m;
                   defaults := defaults m;
                   enableUsageReporting := enableUsageReporting m;
                   cacheTtl := cacheTtl m |};
        cache := cache w; usage := usage w |}).

(** [await this.cache.get(key)] *)
Definition cache_read (key : string) (now : number) : M (option string) :=
  fun w =>
    let '(v, c) := cache_get key now (cache w) in
    (inr v, {| this := this w; cache := c; usage := usage w |}).

(** [await this.cache.set(key, value, ttl)] *)
Definition cache_write (key value : string) (ttl : number) (now : number) : M unit :=
  fun w =>
    (inr tt,
     {| this := this w;
        cache := cache_set key value (Some ttl) now (cache w);
        usage := usage w |}).

(** [apiClient.reportUsage]: nothing when reporting is disabled, else
    a request is sent and its outcome ignored. *)
Definition reportUsage (key : string) (ctx : Context) : M unit :=
  fun w =>
    if enableUsageReporting (this w) then
      (inr tt, {| this := this w; cache := cache w;
                  usage := usage w ++ [(key, ctx)] |})
    else (inr tt, w).

Definition loadRulesFromApi (env : Env) : M unit :=
  try_catch
    (response <- (match api_getRules env with
                  | inr r => ret r
                  | inl e => throw e
                  end) ;;
     set_flags (map fromObject (rr_flags response)) ;;
     m <- get_this ;;
     cache_write CACHE_KEY (JSON_stringify response) (cacheTtl m) (now_write env))
    (fun error =>
       set_flags [] ;;
       throw error).

Definition refreshRules (env : Env) : M unit := loadRulesFromApi env.

Definition ensureRulesLoaded (env : Env) : M unit :=
  m <- get_this ;;
  match flags m with
  | Some _ => ret tt
  | None =>
      cached <- cache_read CACHE_KEY (now_read env) ;;
      match cached with
      | Some text =>
          match JSON_parse text with
          | Some (Some fs) => set_flags (map fromObject fs)
          | Some None => loadRulesFromApi env
          | None => loadRulesFromApi env
          end
      | None => loadRulesFromApi env
      end
  end.

Definition evaluateFlag (m : t) (flag : Flag) : Flag :=
  let rules := getRules flag in
  match rules with
  | [] => flag
  | _ :: _ =>
      match RuleEngine.evaluate rules (context m) with
      | Some matchedRule =>
          let newTarget :=
            {| target_version := target_version (getTarget flag);
               expired_at := expired_at (getTarget flag);
               published_at := published_at (getTarget flag);
               scheduled_at := scheduled_at (getTarget flag);
               target_value := rule_value matchedRule |} in
          {| getVersion := getVersion flag;
             getType := getType flag;
             getKey := getKey flag;
             getName := getName flag;
             getTarget := newTarget;
             getRules := rules |}
      | None => flag
      end
  end.

Definition createFlagFromDefault (key : string) (defaultValue : FlagValue) : Flag :=
  let '(type, target) :=
    match defaultValue with
    | FVBool b => ("boolean", [("boolean", JsBool b)])
    | FVNumber n => ("number", [("number", JsNum n)])
    | FVString s => ("string", [("string", JsStr (ToString (JsStr s)))])
    end in
  {| getVersion := "1";
     getType := type;
     getKey := key;
     getName := key;
     getTarget := {| target_version := None; expired_at := None;
                     published_at := None; scheduled_at := None;
                     target_value := {| vb_version := None; vb_value := target |} |};
     getRules := [] |}.

(** The loop of [single]: the first loaded flag whose key is [key]. *)
Fixpoint lookup_flag (key : string) (fs : list Flag) : option Flag :=
  match fs with
  | [] => None
  | flag :: rest =>
      if String.eqb (getKey flag) key then Some flag else lookup_flag key rest
  end.

Definition single (key : string) (defaultValue : option FlagValue) (env : Env)
    : M Flag :=
  ensureRulesLoaded env ;;
  m <- get_this ;;
  match lookup_flag key (match flags m with Some fs => fs | None => [] end) with
  | Some flag =>
      reportUsage key (context m) ;;
      ret (evaluateFlag m flag)
  | None =>
      match defaultValue with
      | Some dv =>
          let flagFromDefault := createFlagFromDefault key dv in
          reportUsage key (context m) ;;
          ret flagFromDefault
      | None =>
          if DefaultsCollection.has key (defaults m) then
            match DefaultsCollection.get key (defaults m) with
            | Some defaultVal =>
                let flagFromDefault := createFlagFromDefault key defaultVal in
                reportUsage key (context m) ;;
                ret flagFromDefault
            | None => throw (EvaluationError ("Flag not found: " +:+ key))
            end
          else throw (EvaluationError ("Flag not found: " +:+ key))
      end
  end.

Definition all (env : Env) : M (list Flag) :=
  ensureRulesLoaded env ;;
  m <- get_this ;;
  ret (map (evaluateFlag m) (match flags m with Some fs => fs | None => [] end)).

Definition withContext (m : t) (ctx : Context) : t :=
  {| flags := flags m; context := ctx; defaults := defaults m;
     enableUsageReporting := enableUsageReporting m; cacheTtl := cacheTtl m |}.

Definition withDefaults (m : t) (d : gmap string FlagValue) : t :=
  {| flags := flags m; context := context m; defaults := d;
     enableUsageReporting := enableUsageReporting m; cacheTtl := cacheTtl m |}.

(** [new FlagManager(...)] *)
Definition new (reporting : bool) (ttl : number) : t :=
  {| flags := None;
     context := new_Context "anonymous" None None [];
     defaults := DefaultsCollection.empty;
     enableUsageReporting := reporting;
     cacheTtl := ttl |}.

End FlagManager.
End FlagManager.

(** ** [flag.ts]: [Flag.toJSON] *)

Definition Flag_toJSON `{JsNumber} (f : Flag) : FlagData :=
  {| fd_version := getVersion f;
     fd_type := getType f;
     fd_key := getKey f;
     fd_name := getName f;
     fd_target := getTarget f;
     fd_rules := Some (getRules f) |}.

(** ** [context.ts]: contexts from plain data *)

(** [types.ts]: [ContextValue], [ContextAttribute], [ContextData]. *)
Record ContextValue := { cv_value : string }.

Record ContextAttribute := {
  ca_key : string;
  ca_values : list ContextValue;
}.

Record ContextData := {
  cd_type : string;
  cd_name : option string;
  cd_identifier : option string;
  cd_attributes : option (list ContextAttribute);
}.

(** [Context.fromObject] *)
Definition Context_fromObject (data : ContextData) : Context :=
  let context := new_Context (cd_type data) (cd_name data) (cd_identifier data) [] in
  match cd_attributes data with
  | Some attrs =>
      fold_left
        (fun context attrData =>
           let values := map cv_value (ca_values attrData) in
           addAttribute context (new_Attribute (ca_key attrData) values))
        attrs context
  | None => context
  end.

(** [Context.single] *)
Definition Context_single (type identifier : string) (name : option string) : Context :=
  new_Context type name (Some identifier) [].

(** ** [api-client.ts]: class [ApiClient]

    The network is an oracle: [fetch n req] is how the [n]-th request
    that the client sends ends.  A client call threads the requests
    sent and the delays slept so far. *)

Module ApiClient.
Section ApiClient.
Context `{JsNumber}.

(** A parsed JSON document; an object is the list of its properties. *)
#[warnings="-register-all"]
Inductive Json :=
| JNull
| JBool (b : bool)
| JNum (n : number)
| JString (s : string)
| JArray (items : list Json)
| JObject (props : list (string * Json)).

(** What a call throws or a promise rejects with: an error of
    [errors.ts], or another error of the language with its message. *)
Inductive Thrown :=
| Sdk (e : Error)
| Other (message : string).

(** [error.message] *)
Definition message (t : Thrown) : string :=
  match t with
  | Sdk (ZenmanageError m) | Sdk (ConfigurationError m) | Sdk (EvaluationError m)
  | Sdk (FetchRulesError m _) | Sdk (InvalidRulesError m) => m
  | Other m => m
  end.

(** The part of a [Response] that the client reads; [json] is what
    [response.json()] resolves to or rejects with. *)
Record Response := {
  ok : bool;
  status : Z;
  json : Thrown + Json;
}.

Record Request := {
  url : string;
  method : string;
  headers : list (string * string);
}.

Definition SDK_VERSION : string := "1.0.0".
Definition CLIENT_AGENT : string := "zenmanage-javascript".
Definition DEFAULT_API_ENDPOINT : string := "https://api.zenmanage.com".
Definition RULES_PATH : string := "/v1/flag-json".
Definition MAX_RETRIES : nat := 3.
Definition RETRY_DELAY_MS : Z := 100.

(** The fields of a client; the logger is left out. *)
Record t := {
  baseUrl : string;
  client_headers : list (string * string);
  enableUsageReporting : bool;
}.

(** [new ApiClient(environmentToken, apiEndpoint, logger, enableUsageReporting)]
    with the defaults of the two optional parameters. *)
Definition new (environmentToken : string) (apiEndpoint : option string)
    (reporting : option bool) : t :=
  {| baseUrl := match apiEndpoint with Some e => e | None => DEFAULT_API_ENDPOINT end;
     client_headers :=
       [("Accept", "application/json");
        ("Content-Type", "application/json");
        ("X-API-Key", environmentToken);
        ("X-ZEN-CLIENT-AGENT", CLIENT_AGENT +:+ "/" +:+ SDK_VERSION)];
     enableUsageReporting := match reporting with Some b => b | None => false end |}.

Variable fetch : nat -> Request -> Thrown + Response.

Record Net := {
  requests : list Request;
  slept : list Z;
}.

(** [await this.fetch(url, options)] *)
Definition do_fetch (req : Request) (s : Net) : (Thrown + Response) * Net :=
  (fetch (length (requests s)) req,
   {| requests := requests s ++ [req]; slept := slept s |}).

(** [await this.delay(ms)] *)
Definition delay (ms : Z) (s : Net) : Net :=
  {| requests := requests s; slept := slept s ++ [ms] |}.

(** [obj.k] on a parsed value: [None] is undefined. *)
Definition prop (k : string) (j : Json) : option Json :=
  match j with
  | JObject props =>
      match List.find (fun p => String.eqb (fst p) k) props with
      | Some p => Some (snd p)
      | None => None
      end
  | _ => None
  end.

(** [typeof x === 'object' && x !== null] *)
Definition is_object (j : Json) : bool :=
  match j with
  | JObject _ | JArray _ => true
  | _ => false
  end.

Definition isValidMetadataResponse (data : Json) : bool :=
  if negb (is_object data) then false
  else
    match prop "data" data with
    | Some dataObj =>
        if negb (is_object dataObj) then false
        else
          match prop "cdn" dataObj, prop "path" dataObj with
          | Some _, Some _ => true
          | _, _ => false
          end
    | None => false
    end.

Definition isValidRulesResponse (data : Json) : bool :=
  if negb (is_object data) then false
  else
    match prop "version" data with
    | Some (JString _) =>
        match prop "flags" data with
        | Some (JArray _) => true
        | _ => false
        end
    | _ => false
    end.

Definition getCdnRulesUrl (c : t) (s : Net) : (Thrown + string) * Net :=
  let url := baseUrl c +:+ RULES_PATH in
  match do_fetch {| url := url; method := "GET"; headers := client_headers c |} s with
  | (inl e, s) => (inl e, s)
  | (inr response, s) =>
      if negb (ok response) then
        (inl (Sdk (FetchRulesError
                     ("API metadata request failed with status " +:+ pretty (status response))
                     (Some (status response)))), s)
      else
        match json response with
        | inl e => (inl e, s)
        | inr metadata =>
            if negb (isValidMetadataResponse metadata) then
              (inl (Sdk (InvalidRulesError "API response missing cdn or path fields")), s)
            else
              match prop "data" metadata with
              | Some dataObj =>
                  match prop "cdn" dataObj, prop "path" dataObj with
                  | Some (JString cdn), Some (JString path) => (inr (cdn +:+ path), s)
                  | _, _ =>
                      (inl (Sdk (InvalidRulesError "cdn or path fields are not strings")), s)
                  end
              | None =>
                  (inl (Sdk (InvalidRulesError "cdn or path fields are not strings")), s)
              end
        end
  end.

(** The body of the [try] block of [getRules], after the delay. *)
Definition fetchRulesOnce (c : t) (s : Net) : (Thrown + Json) * Net :=
  match getCdnRulesUrl c s with
  | (inl e, s) => (inl e, s)
  | (inr cdnUrl, s) =>
      match do_fetch {| url := cdnUrl; method := "GET";
                        headers := [("Accept", "application/json")] |} s with
      | (inl e, s) => (inl e, s)
      | (inr rulesResponse, s) =>
          if negb (ok rulesResponse) then
            (inl (Sdk (FetchRulesError
                         ("CDN request failed with status " +:+ pretty (status rulesResponse))
                         (Some (status rulesResponse)))), s)
          else
            match json rulesResponse with
            | inl e => (inl e, s)
            | inr data =>
                if negb (isValidRulesResponse data) then
                  (inl (Sdk (InvalidRulesError "Invalid response format from CDN")), s)
                else (inr data, s)
            end
      end
  end.

(** The loop of [getRules] from [attempt] on, with [remaining]
    iterations to go. *)
Fixpoint getRules_from (c : t) (attempt remaining : nat) (lastError : option Thrown)
    (s : Net) : (Error + Json) * Net :=
  match remaining with
  | O =>
      (inl (FetchRulesError
              ("Failed to fetch rules after " +:+ pretty MAX_RETRIES +:+ " attempts: " +:+
               match lastError with Some e => message e | None => "undefined" end)
              None), s)
  | S remaining =>
      let s :=
        if (0 <? attempt)%nat
        then delay (RETRY_DELAY_MS * 2 ^ (Z.of_nat attempt - 1)) s
        else s in
      match fetchRulesOnce c s with
      | (inr data, s) => (inr data, s)
      | (inl error, s) => getRules_from c (S attempt) remaining (Some error) s
      end
  end.

Definition getRules (c : t) (s : Net) : (Error + Json) * Net :=
  getRules_from c 0 MAX_RETRIES None s.

End ApiClient.
End ApiClient.

(** ** [config.ts]: class [ConfigBuilder] *)

Module ConfigBuilder.
Section ConfigBuilder.
Context `{JsNumber}.

(** A logger is known by what it is: the do-nothing logger of
    [config.ts], or one that the caller passes. *)
Inductive Logger :=
| NullLogger
| CustomLogger (name : string).

(** [types.ts]: [Config], with every field optional as in
    [Partial<Config>]. *)
Record Config := {
  environmentToken : option string;
  cacheTtl : option number;
  cacheBackend : option string;
  cacheDirectory : option string;
  enableUsageReporting : option bool;
  apiEndpoint : option string;
  logger : option Logger;
}.

(** Whether an optional string is truthy: defined and not empty. *)
Definition truthy (s : option string) : bool :=
  match s with
  | Some s => negb (String.eqb s "")
  | None => false
  end.

(** [ConfigBuilder.create()] *)
Definition create : Config :=
  {| environmentToken := None;
     cacheTtl := Some (num_of_Z 3600);
     cacheBackend := Some "memory";
     cacheDirectory := None;
     enableUsageReporting := Some true;
     apiEndpoint := Some "https://api.zenmanage.com";
     logger := None |}.

Definition withEnvironmentToken (token : string) (b : Config) : Config :=
  {| environmentToken := Some token; cacheTtl := cacheTtl b;
     cacheBackend := cacheBackend b; cacheDirectory := cacheDirectory b;
     enableUsageReporting := enableUsageReporting b;
     apiEndpoint := apiEndpoint b; logger := logger b |}.

Definition withCacheTtl (ttl : number) (b : Config) : Config :=
  {| environmentToken := environmentToken b; cacheTtl := Some ttl;
     cacheBackend := cacheBackend b; cacheDirectory := cacheDirectory b;
     enableUsageReporting := enableUsageReporting b;
     apiEndpoint := apiEndpoint b; logger := logger b |}.

Definition withCacheBackend (backend : string) (b : Config) : Config :=
  {| environmentToken := environmentToken b; cacheTtl := cacheTtl b;
     cacheBackend := Some backend; cacheDirectory := cacheDirectory b;
     enableUsageReporting := enableUsageReporting b;
     apiEndpoint := apiEndpoint b; logger := logger b |}.

Definition withCacheDirectory (directory : string) (b : Config) : Config :=
  {| environmentToken := environmentToken b; cacheTtl := cacheTtl b;
     cacheBackend := cacheBackend b; cacheDirectory := Some directory;
     enableUsageReporting := enableUsageReporting b;
     apiEndpoint := apiEndpoint b; logger := logger b |}.

Definition withUsageReporting (enabled : bool) (b : Config) : Config :=
  {| environmentToken := environmentToken b; cacheTtl := cacheTtl b;
     cacheBackend := cacheBackend b; cacheDirectory := cacheDirectory b;
     enableUsageReporting := Some enabled;
     apiEndpoint := apiEndpoint b; logger := logger b |}.

Definition withApiEndpoint (endpoint : string) (b : Config) : Config :=
  {| environmentToken := environmentToken b; cacheTtl := cacheTtl b;
     cacheBackend := cacheBackend b; cacheDirectory := cacheDirectory b;
     enableUsageReporting := enableUsageReporting b;
     apiEndpoint := Some endpoint; logger := logger b |}.

Definition withLogger (l : Logger) (b : Config) : Config :=
  {| environmentToken := environmentToken b; cacheTtl := cacheTtl b;
     cacheBackend := cacheBackend b; cacheDirectory := cacheDirectory b;
     enableUsageReporting := enableUsageReporting b;
     apiEndpoint := apiEndpoint b; logger := Some l |}.

(** [ConfigBuilder.fromEnvironment()]; [env] is [process.env].  Each
    statement of the method reads one variable and updates the
    builder when the value is accepted. *)
Definition readToken (env : gmap string string) (builder : Config) : Config :=
  let token := env !! "ZENMANAGE_ENVIRONMENT_TOKEN" in
  match token with
  | Some t => if truthy token then withEnvironmentToken t builder else builder
  | None => builder
  end.

Definition readCacheTtl (env : gmap string string) (builder : Config) : Config :=
  let cacheTtl := env !! "ZENMANAGE_CACHE_TTL" in
  match cacheTtl with
  | Some t =>
      if truthy cacheTtl && negb (isNaN (Number_of_string t))
      then withCacheTtl (Number_of_string t) builder else builder
  | None => builder
  end.

Definition readCacheBackend (env : gmap string string) (builder : Config) : Config :=
  let cacheBackend := env !! "ZENMANAGE_CACHE_BACKEND" in
  match cacheBackend with
  | Some b =>
      if truthy cacheBackend &&
         existsb (String.eqb b) ["memory"; "filesystem"; "null"]
      then withCacheBackend b builder else builder
  | None => builder
  end.

Definition readCacheDir (env : gmap string string) (builder : Config) : Config :=
  let cacheDir := env !! "ZENMANAGE_CACHE_DIR" in
  match cacheDir with
  | Some d => if truthy cacheDir then withCacheDirectory d builder else builder
  | None => builder
  end.

Definition readUsageReporting (env : gmap string string) (builder : Config) : Config :=
  match env !! "ZENMANAGE_ENABLE_USAGE_REPORTING" with
  | Some e =>
      if String.eqb e "true" || String.eqb e "1" then withUsageReporting true builder
      else if String.eqb e "false" || String.eqb e "0" then withUsageReporting false builder
      else builder
  | None => builder
  end.

Definition readApiEndpoint (env : gmap string string) (builder : Config) : Config :=
  let apiEndpoint := env !! "ZENMANAGE_API_ENDPOINT" in
  match apiEndpoint with
  | Some e => if truthy apiEndpoint then withApiEndpoint e builder else builder
  | None => builder
  end.

Definition fromEnvironment (env : gmap string string) : Config :=
  let builder := create in
  let builder := readToken env builder in
  let builder := readCacheTtl env builder in
  let builder := readCacheBackend env builder in
  let builder := readCacheDir env builder in
  let builder := readUsageReporting env builder in
  let builder := readApiEndpoint env builder in
  builder.

(** [build()]: the validated configuration, or the error thrown. *)
Definition build (b : Config) : Error + Config :=
  if negb (truthy (environmentToken b)) then
    inl (ConfigurationError "Environment token is required")
  else if match cacheBackend b with
          | Some backend => String.eqb backend "filesystem"
          | None => false
          end && negb (truthy (cacheDirectory b)) then
    inl (ConfigurationError "Cache directory is required for filesystem cache")
  else
    inr (match logger b with
         | Some _ => b
         | None => withLogger NullLogger b
         end).

End ConfigBuilder.
End ConfigBuilder.

(** ** [zenmanage.ts]: class [Zenmanage] *)

Module Zenmanage.
Section Zenmanage.
Context `{JsNumber}.
Import ConfigBuilder.

(** The cache that [createCache] constructs. *)
Inductive CacheBackend :=
| MemoryBackend
| FileSystemBackend (directory : string)
| NullBackend.

Definition createCache (config : Config) : Error + CacheBackend :=
  match cacheBackend config with
  | Some backend =>
      if String.eqb backend "filesystem" then
        match cacheDirectory config with
        | Some d =>
            if truthy (cacheDirectory config) then inr (FileSystemBackend d)
            else inl (ConfigurationError "Cache directory required for filesystem cache")
        | None => inl (ConfigurationError "Cache directory required for filesystem cache")
        end
      else if String.eqb backend "memory" then inr MemoryBackend
      else if String.eqb backend "null" then inr NullBackend
      else inl (ConfigurationError ("Invalid cache backend: " +:+ backend))
  | None => inl (ConfigurationError "Invalid cache backend: undefined")
  end.

(** What the constructor wires together. *)
Record t := {
  backend : CacheBackend;
  apiClient : ApiClient.t;
  flagManager : FlagManager.t;
}.

(** [config.cacheTtl || 3600] *)
Definition effective_ttl (config : Config) : number :=
  match cacheTtl config with
  | Some ttl => if Boolean_of_number ttl then ttl else num_of_Z 3600
  | None => num_of_Z 3600
  end.

(** [new Zenmanage(config)]; [config.environmentToken] is a string by
    the type of [Config]. *)
Definition new (config : Config) : Error + t :=
  match createCache config with
  | inl e => inl e
  | inr cache =>
      let apiClient :=
        ApiClient.new
          (match environmentToken config with Some t => t | None => "undefined" end)
          (apiEndpoint config) (enableUsageReporting config) in
      inr {| backend := cache;
             apiClient := apiClient;
             flagManager :=
               FlagManager.new (ApiClient.enableUsageReporting apiClient)
                 (effective_ttl config) |}
  end.

End Zenmanage.
End Zenmanage.

(** ** [cache/filesystem-cache.ts]: the file of a key *)

Module FileSystemCache.

Definition alphabet : string :=
  "ABCDEFGHIJKLMNOPQRSTUVWXYZabcdefghijklmnopqrstuvwxyz0123456789+/".

(** The base64 digit of a 6-bit value. *)
Definition digit (i : N) : ascii :=
  match String.get (N.to_nat i) alphabet with
  | Some c => c
  | None => "="%char
  end.

(** [Buffer.from(key).toString('base64')], on the bytes of the key. *)
Fixpoint base64 (bytes : string) : string :=
  match bytes with
  | EmptyString => ""
  | String a EmptyString =>
      let a := N_of_ascii a in
      String (digit (N.shiftr a 2))
        (String (digit (N.shiftl (N.land a 3) 4)) "==")
  | String a (String b EmptyString) =>
      let a := N_of_ascii a in
      let b := N_of_ascii b in
      String (digit (N.shiftr a 2))
        (String (digit (N.lor (N.shiftl (N.land a 3) 4) (N.shiftr b 4)))
           (String (digit (N.shiftl (N.land b 15) 2)) "="))
  | String a (String b (String c rest)) =>
      let a := N_of_ascii a in
      let b := N_of_ascii b in
      let c := N_of_ascii c in
      String (digit (N.shiftr a 2))
        (String (digit (N.lor (N.shiftl (N.land a 3) 4) (N.shiftr b 4)))
           (String (digit (N.lor (N.shiftl (N.land b 15) 2) (N.shiftr c 6)))
              (String (digit (N.land c 63)) (base64 rest))))
  end.

(** [.replace(/[/+=]/g, '_')] *)
Fixpoint replace_specials (s : string) : string :=
  match s with
  | EmptyString => ""
  | String c r =>
      String (if Ascii.eqb c "/" || Ascii.eqb c "+" || Ascii.eqb c "=" then "_"%char else c)
        (replace_specials r)
  end.

Definition hash (key : string) : string := replace_specials (base64 key).

(** [getFilePath]; [join] is [path.join]. *)
Definition getFilePath (join : string -> string -> string) (cacheDir key : string)
    : string :=
  join cacheDir (hash key +:+ ".json").

End FileSystemCache.

(** *** The store of files

    The cache directory is the map from the names of its files to
    their texts, or nothing when the directory does not exist; reading
    a missing file and any operation on a missing directory throw, and
    the cache catches it.  Other failures of the file system are not
    modelled.  The text of a file either fails to parse or is the
    serialization of an item. *)

Module FileSystemStore.
Section FileSystemStore.
Context `{JsNumber}.

(** [interface CacheItem] *)
Record CacheItem := {
  ci_value : string;
  ci_expires : option number;
}.

(** [JSON.stringify(item)], and [JSON.parse(data)] with [None] for a
    text on which it throws. *)
Variable stringify : CacheItem -> string.
Variable parse : string -> option CacheItem.

Record t := {
  isNode : bool;
  directory : option (gmap string string);
}.

(** The constructor, given the directory as it is found and whether
    [mkdirSync] would succeed. *)
Definition new (isNode : bool) (found : option (gmap string string))
    (mkdir_succeeds : bool) : t :=
  {| isNode := isNode;
     directory :=
       if isNode then
         match found with
         | Some files => Some files
         | None => if mkdir_succeeds then Some ∅ else None
         end
       else found |}.

(** The name of the file of a key inside the cache directory. *)
Definition fileName (key : string) : string :=
  FileSystemCache.hash key +:+ ".json".

Definition delete (key : string) (c : t) : t :=
  if negb (isNode c) then c
  else
    match directory c with
    | Some files =>
        {| isNode := isNode c; directory := Some (base.delete (fileName key) files) |}
    | None => c
    end.

Definition get (key : string) (now : number) (c : t) : option string * t :=
  if negb (isNode c) then (None, c)
  else
    match directory c with
    | Some files =>
        match files !! fileName key with
        | Some data =>
            match parse data with
            | Some item =>
                match ci_expires item with
                | Some e =>
                    if num_lt e now then (None, delete key c)
                    else (Some (ci_value item), c)
                | None => (Some (ci_value item), c)
                end
            | None => (None, c)
            end
        | None => (None, c)
        end
    | None => (None, c)
    end.

Definition set (key value : string) (ttl : option number) (now : number) (c : t) : t :=
  if negb (isNode c) then c
  else
    let expires :=
      match ttl with
      | Some ttl => Some (num_add now (num_mul ttl (num_of_Z 1000)))
      | None => None
      end in
    let item := {| ci_value := value; ci_expires := expires |} in
    match directory c with
    | Some files =>
        {| isNode := isNode c;
           directory := Some (<[fileName key := stringify item]> files) |}
    | None => c
    end.

Definition has (key : string) (now : number) (c : t) : bool * t :=
  let '(value, c) := get key now c in
  (match value with Some _ => true | None => false end, c).

Definition clear (c : t) : t :=
  if negb (isNode c) then c
  else
    match directory c with
    | Some files =>
        {| isNode := isNode c;
           directory :=
             Some (filter (fun file => JsString.endsWith file.1 ".json" = false) files) |}
    | None => c
    end.

#[global] Instance cache : Cache t := {
  cache_get := get;
  cache_set := set;
  cache_has := has;
  cache_delete := delete;
  cache_clear := clear;
}.

End FileSystemStore.
End FileSystemStore.

(** * Vocabulary of the specification *)

Section Vocabulary.
Context `{JsNumber}.
Import RuleEngine.

(** A clause with another operator, same attribute and value. *)
Definition with_operator (op : string) (clause : RuleCondition) : RuleCondition :=
  {| attribute := attribute clause; operator := op;
     clause_value := clause_value clause |}.

(** The comparison an ordering operator stands for. *)
Definition comparison_of (op : string) : option (number -> number -> bool) :=
  if String.eqb op "gt" then Some num_gt
  else if String.eqb op "gte" then Some num_ge
  else if String.eqb op "lt" then Some num_lt
  else if String.eqb op "lte" then Some num_le
  else None.

Definition positive_operators : list string :=
  ["equals"; "contains"; "in"; "starts_with"; "ends_with";
   "gt"; "gte"; "lt"; "lte"].

Definition negated_operators : list string :=
  ["not_equals"; "not_contains"; "not_in"].

(** The first key of [order] that the envelope has. *)
Definition first_present (order : list string) (o : Envelope) : option string :=
  List.find (fun k => has_key k o) order.

(** The accessors as the specification words them: the keys of the
    envelope are inspected in a given order of preference, then the
    first property of the object is taken. *)
Definition asBool_in (order : list string) (f : Flag) : bool :=
  match first_present order (envelope f) with
  | Some k => ToBoolean (get_prop k (envelope f))
  | None => ToBoolean (first_value (envelope f))
  end.

Definition asString_in (order : list string) (f : Flag) : string :=
  match first_present order (envelope f) with
  | Some k => ToString (get_prop k (envelope f))
  | None =>
      if is_undefined (first_value (envelope f)) then ""
      else ToString (first_value (envelope f))
  end.

(** How [asNumber] converts the property it has picked. *)
Definition number_from (k : string) (v : JsValue) : number :=
  if String.eqb k "number" then ToNumber v
  else if String.eqb k "boolean" then
    if ToBoolean v then num_of_Z 1 else num_of_Z 0
  else or_zero (parseFloat (ToString v)).

Definition asNumber_in (order : list string) (f : Flag) : number :=
  match first_present order (envelope f) with
  | Some k => number_from k (get_prop k (envelope f))
  | None =>
      if is_undefined (first_value (envelope f)) then num_of_Z 0
      else or_zero (parseFloat (ToString (first_value (envelope f))))
  end.

Definition getValue_in (order : list string) (f : Flag) : JsValue :=
  match first_present order (envelope f) with
  | Some k => get_prop k (envelope f)
  | None =>
      if is_undefined (first_value (envelope f)) then JsStr ""
      else first_value (envelope f)
  end.

(** The order of preference the specification gives for all four. *)
Definition boolean_string_number : list string := ["boolean"; "string"; "number"].

Definition accessors_follow (bool_order string_order number_order value_order
    : list string) (f : Flag) : Prop :=
  asBool f = asBool_in bool_order f /\
  asString f = asString_in string_order f /\
  asNumber f = asNumber_in number_order f /\
  getValue f = getValue_in value_order f.

(** What it is for a flag to be synthesized from a default value under
    a key: the key is its key and its name, it has no rules, its raw
    value is the default, its type is the type of the default, and the
    accessor of that type gives the default back; it is enabled exactly
    when the default is the boolean true. *)
Definition synthesized_from (key : string) (dv : FlagValue) (f : Flag) : Prop :=
  getKey f = key /\
  getName f = key /\
  getRules f = [] /\
  getValue f = FlagValue_to_js dv /\
  match dv with
  | FVBool b => getType f = "boolean" /\ asBool f = b /\ isEnabled f = b
  | FVString s => getType f = "string" /\ asString f = s /\ isEnabled f = false
  | FVNumber n => getType f = "number" /\ asNumber f = n /\ isEnabled f = false
  end.

End Vocabulary.

(** * Vocabulary for the further properties *)

(** The delays that the retry loop of [getRules] sleeps when it runs
    [remaining] more attempts from attempt number [attempt] on: none
    before attempt 0, and 100 ms doubled with each attempt after. *)
Fixpoint retry_delays (attempt remaining : nat) : list Z :=
  match remaining with
  | O => []
  | S remaining =>
      (if (0 <? attempt)%nat
       then [ApiClient.RETRY_DELAY_MS * 2 ^ (Z.of_nat attempt - 1)]%Z else [])
      ++ retry_delays (S attempt) remaining
  end.

(** A character that is a letter, a digit or an underscore. *)
Definition safe_char (c : ascii) : bool :=
  let n := nat_of_ascii c in
  ((48 <=? n) && (n <=? 57) || (65 <=? n) && (n <=? 90)
   || (97 <=? n) && (n <=? 122) || (n =? 95))%nat.

(** The cache backends that the builder accepts. *)
Definition valid_backends : list string := ["memory"; "filesystem"; "null"].


(** * Sample data

    Inputs in the style of the test suite, over the decimal
    implementation of numbers. *)

Module Samples.
Import DecNumber.

Definition boolean_box (b : bool) : ValueBox :=
  {| vb_version := None; vb_value := [("boolean", JsBool b)] |}.

Definition plain_target (box : ValueBox) : FlagTarget :=
  {| target_version := None; expired_at := None; published_at := None;
     scheduled_at := None; target_value := box |}.

Definition clause (attribute operator value : string) : RuleCondition :=
  {| attribute := attribute; operator := operator;
     clause_value := Some (CVString value) |}.

Definition rule_of (cs : list RuleCondition) (box : ValueBox) : Rule :=
  {| rule_version := None; description := None; criteria := None;
     clauses := Some cs; position := None; rule_value := box |}.

Definition user (attrs : list Attribute) : Context :=
  new_Context "user" None None attrs.

(** [{clauses: [country equals US], value: true}] and
    [{clauses: [country equals CA], value: false}] *)
Definition rule_us : Rule := rule_of [clause "country" "equals" "US"] (boolean_box true).
Definition rule_ca : Rule := rule_of [clause "country" "equals" "CA"] (boolean_box false).

Definition ctx_us : Context := user [new_Attribute "country" ["US"]].
Definition ctx_ca : Context := user [new_Attribute "country" ["CA"]].
Definition ctx_uk : Context := user [new_Attribute "country" ["UK"]].

(** A boolean flag that is off unless the country is US. *)
Definition flag_new_ui : Flag :=
  {| getVersion := "7"; getType := "boolean"; getKey := "new-ui";
     getName := "New UI";
     getTarget :=
       {| target_version := Some "3"; expired_at := Some None;
          published_at := Some (Some "2024-01-01T00:00:00Z");
          scheduled_at := None; target_value := boolean_box false |};
     getRules := [rule_us] |}.

(** A string flag without rules. *)
Definition flag_theme : Flag :=
  {| getVersion := "1"; getType := "string"; getKey := "theme";
     getName := "Theme";
     getTarget :=
       plain_target {| vb_version := None; vb_value := [("string", JsStr "value")] |};
     getRules := [] |}.

(** A flag whose envelope holds a boolean and a string. *)
Definition flag_two_keys : Flag :=
  {| getVersion := "1"; getType := "string"; getKey := "both";
     getName := "Both";
     getTarget :=
       plain_target
         {| vb_version := None;
            vb_value := [("boolean", JsBool true); ("string", JsStr "x")] |};
     getRules := [] |}.

(** [age gt 18] against an attribute with a value that is no number. *)
Definition clause_adult : RuleCondition := clause "age" "gt" "18".
Definition ctx_age : Context := user [new_Attribute "age" ["abc"; "21"]].

(** A clause without a value. *)
Definition clause_no_value : RuleCondition :=
  {| attribute := "plan"; operator := "not_equals"; clause_value := None |}.
Definition ctx_plan : Context := user [new_Attribute "plan" ["premium"]].

(** A serializer and a parser for the samples; the cached text is the
    version of the document, which the parser does not accept. *)
Definition stringify (r : RulesResponse) : string := rr_version r.
Definition parse (text : string) : option (option (list FlagData)) := None.

(** A manager over an in-memory cache, with [new-ui] loaded and the
    defaults collection [{x: 'B'}]. *)
Definition manager : FlagManager.t :=
  {| FlagManager.flags := Some [flag_new_ui];
     FlagManager.context := ctx_us;
     FlagManager.defaults := DefaultsCollection.fromObject [("x", FVString "B")];
     FlagManager.enableUsageReporting := true;
     FlagManager.cacheTtl := of_Z 3600 |}.

Definition world : FlagManager.World (C := gmap string InMemoryCache.Item) :=
  {| FlagManager.this := manager; FlagManager.cache := ∅; FlagManager.usage := [] |}.

(** A manager that has loaded nothing yet. *)
Definition fresh_world : FlagManager.World (C := gmap string InMemoryCache.Item) :=
  {| FlagManager.this := FlagManager.new true (of_Z 3600);
     FlagManager.cache := ∅; FlagManager.usage := [] |}.

Definition document_flag : FlagData :=
  {| fd_version := "7"; fd_type := "boolean"; fd_key := "new-ui";
     fd_name := "New UI"; fd_target := plain_target (boolean_box false);
     fd_rules := Some [rule_us] |}.

Definition document : RulesResponse :=
  {| rr_version := "v1"; rr_flags := [document_flag] |}.

Definition fetch_error : Error :=
  FetchRulesError "Failed to fetch rules after 3 attempts: timeout" None.

Definition env_ok : FlagManager.Env :=
  {| FlagManager.api_getRules := inr document;
     FlagManager.now_read := of_Z 1000; FlagManager.now_write := of_Z 1005 |}.

Definition env_down : FlagManager.Env :=
  {| FlagManager.api_getRules := inl fetch_error;
     FlagManager.now_read := of_Z 1000; FlagManager.now_write := of_Z 1005 |}.

End Samples.

(** * More sample data *)

Module MoreSamples.
Import DecNumber Samples.

(** A rule without conditions, as put last in a rule list. *)
Definition rule_catch_all : Rule :=
  {| rule_version := None; description := None; criteria := None;
     clauses := None; position := None; rule_value := boolean_box false |}.

(** The context of a manager that was given none. *)
Definition anonymous : Context := new_Context "anonymous" None None [].

(** A clause with an operator that the engine does not know. *)
Definition clause_regex : RuleCondition := Samples.clause "country" "regex" "U.*".

(** A user with two plans, and one with an attribute without values. *)
Definition ctx_plans : Context := user [new_Attribute "plan" ["basic"; "premium"]].
Definition ctx_no_tags : Context := user [new_Attribute "tags" []].

Definition clause_plan_premium : RuleCondition := Samples.clause "plan" "equals" "premium".

Definition clause_plan_in : RuleCondition :=
  {| attribute := "plan"; operator := "in";
     clause_value := Some (CVArray ["premium"; "enterprise"]) |}.

Definition clause_tag_beta : RuleCondition := Samples.clause "tags" "not_equals" "beta".

Definition ctx_email : Context := user [new_Attribute "email" ["john@acme.com"]].
Definition clause_email : RuleCondition := Samples.clause "email" "contains" "@acme.com".

(** A parser that knows the serialization of the sample document. *)
Definition parse_known (text : string) : option (option (list FlagData)) :=
  if String.eqb text (stringify document) then Some (Some (rr_flags document))
  else None.

(** A manager that has loaded nothing, on a cache that holds the
    sample document without expiry. *)
Definition world_cached : FlagManager.World (C := gmap string InMemoryCache.Item) :=
  {| FlagManager.this := FlagManager.new true (of_Z 3600);
     FlagManager.cache :=
       InMemoryCache.set FlagManager.CACHE_KEY (stringify document) None (of_Z 0) ∅;
     FlagManager.usage := [] |}.

(** A builder with a token and nothing else set. *)
Definition builder_token : ConfigBuilder.Config :=
  ConfigBuilder.withEnvironmentToken "tok_test_123" ConfigBuilder.create.

(** [path.join] on a directory and a file name without separators. *)
Definition join_slash (dir file : string) : string := dir +:+ "/" +:+ file.

(** A serialization of cache items that keeps the value only, for
    items without expiry, and a working cache directory that is empty. *)
Definition stringify_item (item : FileSystemStore.CacheItem) : string :=
  FileSystemStore.ci_value item.
Definition parse_item (text : string) : option FileSystemStore.CacheItem :=
  Some {| FileSystemStore.ci_value := text; FileSystemStore.ci_expires := None |}.
Definition empty_directory : FileSystemStore.t :=
  FileSystemStore.new true None true.

End MoreSamples.

(** * Properties *)

(** ** The decimal implementation of numbers *)

Example parse_float_examples :
  DecNumber.parse_float "  3.14abc" = DecNumber.Fin 314 (-2) /\
  DecNumber.parse_float "-12e3" = DecNumber.Fin (-12) 3 /\
  DecNumber.parse_float ".5" = DecNumber.Fin 5 (-1) /\
  DecNumber.parse_float "1e" = DecNumber.Fin 1 0 /\
  DecNumber.parse_float "0x10" = DecNumber.Fin 0 0 /\
  DecNumber.parse_float "-Infinity" = DecNumber.Inf true /\
  DecNumber.parse_float "abc" = DecNumber.NaN /\
  DecNumber.parse_float "" = DecNumber.NaN /\
  DecNumber.parse_float "undefined" = DecNumber.NaN.
Proof. repeat split; reflexivity. Qed.

Example to_number_examples :
  DecNumber.to_number " 42 " = DecNumber.Fin 42 0 /\
  DecNumber.to_number "" = DecNumber.Fin 0 0 /\
  DecNumber.to_number "0x1F" = DecNumber.Fin 31 0 /\
  DecNumber.to_number "12px" = DecNumber.NaN /\
  DecNumber.to_number "1e" = DecNumber.NaN /\
  DecNumber.to_number "5." = DecNumber.Fin 5 0.
Proof. repeat split; reflexivity. Qed.

Example to_string_examples :
  DecNumber.to_string (DecNumber.Fin 42 0) = "42" /\
  DecNumber.to_string (DecNumber.Fin 314 (-2)) = "3.14" /\
  DecNumber.to_string (DecNumber.Fin (-5) (-1)) = "-0.5" /\
  DecNumber.to_string (DecNumber.Fin 1200 (-1)) = "120" /\
  DecNumber.to_string (DecNumber.Fin 1 21) = "1e+21" /\
  DecNumber.to_string (DecNumber.Fin 15 (-8)) = "1.5e-7" /\
  DecNumber.to_string (DecNumber.Fin 1 (-6)) = "0.000001" /\
  DecNumber.to_string (DecNumber.mul (DecNumber.Fin 1 (-1)) (DecNumber.of_Z 1000)) = "100".
Proof. repeat split; reflexivity. Qed.


(** ** Rule engine *)

Section RuleEngineFacts.
Context `{JsNumber}.
Import RuleEngine.

Lemma evaluate_Some (rules : list Rule) (ctx : Context) (r : Rule) :
  evaluate rules ctx = Some r <->
  exists pre post,
    rules = pre ++ r :: post /\ evaluateRule r ctx = true /\
    Forall (fun x => evaluateRule x ctx = false) pre.
Proof.
  induction rules as [|x rest IH]; simpl.
  - split; [discriminate|].
    intros (pre & post & E & _). destruct pre; discriminate.
  - destruct (evaluateRule x ctx) eqn:Hx.
    + split.
      * intros [= <-]. exists [], rest. auto.
      * intros (pre & post & E & Hr & Hpre).
        destruct pre as [|y pre]; simpl in E.
        -- congruence.
        -- injection E as <- _. inversion Hpre; congruence.
    + rewrite IH. split.
      * intros (pre & post & -> & Hr & Hpre).
        exists (x :: pre), post. auto.
      * intros (pre & post & E & Hr & Hpre).
        destruct pre as [|y pre]; simpl in E.
        -- injection E as -> _. congruence.
        -- injection E as <- ->. inversion Hpre; subst. eauto.
Qed.

Lemma evaluate_None (rules : list Rule) (ctx : Context) :
  evaluate rules ctx = None <->
  Forall (fun x => evaluateRule x ctx = false) rules.
Proof.
  induction rules as [|x rest IH]; simpl.
  - split; auto.
  - destruct (evaluateRule x ctx) eqn:Hx.
    + split; [discriminate|]. inversion 1; congruence.
    + rewrite IH. split; [auto|]. inversion 1; auto.
Qed.

Lemma evaluateRule_clauses (r : Rule) (ctx : Context) (cs : list RuleCondition) :
  clauses r = Some cs -> cs <> [] ->
  (evaluateRule r ctx = true <->
   forall c, In c cs -> evaluateClause c ctx = true).
Proof.
  intros E Hne. unfold evaluateRule. rewrite E.
  destruct cs as [|c cs]; [congruence|].
  rewrite forallb_forall. reflexivity.
Qed.

Lemma evaluateRule_no_clauses (r : Rule) (ctx : Context) :
  clauses r = None \/ clauses r = Some [] ->
  evaluateRule r ctx =
  match criteria r with
  | Some c => evaluateClause c ctx
  | None => true
  end.
Proof. unfold evaluateRule. intros [-> | ->]; reflexivity. Qed.

(** C1. [evaluate] returns the first rule, in list order, that
    matches the context, and none exactly when no rule matches (so
    also for the empty list).  A rule with clauses matches iff each
    of them does; without clauses it matches iff its criteria does;
    without conditions it matches. *)
Theorem evaluate_first_match (rules : list Rule) (ctx : Context) :
  (forall r,
     evaluate rules ctx = Some r <->
     exists pre post,
       rules = pre ++ r :: post /\ evaluateRule r ctx = true /\
       Forall (fun x => evaluateRule x ctx = false) pre) /\
  (evaluate rules ctx = None <->
   Forall (fun x => evaluateRule x ctx = false) rules) /\
  evaluate [] ctx = None /\
  (forall r cs,
     clauses r = Some cs -> cs <> [] ->
     (evaluateRule r ctx = true <->
      forall c, In c cs -> evaluateClause c ctx = true)) /\
  (forall r c,
     clauses r = None \/ clauses r = Some [] -> criteria r = Some c ->
     evaluateRule r ctx = evaluateClause c ctx) /\
  (forall r,
     clauses r = None \/ clauses r = Some [] -> criteria r = None ->
     evaluateRule r ctx = true).
Proof.
  split; [intros r; apply evaluate_Some|].
  split; [apply evaluate_None|].
  split; [reflexivity|].
  split; [intros r cs; apply evaluateRule_clauses|].
  split.
  - intros r c Hc Hcr. rewrite evaluateRule_no_clauses, Hcr; auto.
  - intros r Hc Hcr. rewrite evaluateRule_no_clauses, Hcr; auto.
Qed.

(** C2. A clause on an attribute that the context lacks does not
    match, whatever its operator; on an attribute that is present,
    [not_equals], [not_contains] and [not_in] are the negations of
    [equals], [contains] and [in]. *)
Theorem absent_attribute_never_matches (clause : RuleCondition) (ctx : Context) :
  (getAttribute ctx (attribute clause) = None ->
   evaluateClause clause ctx = false) /\
  (is_Some (getAttribute ctx (attribute clause)) ->
   evaluateClause (with_operator "not_equals" clause) ctx =
     negb (evaluateClause (with_operator "equals" clause) ctx) /\
   evaluateClause (with_operator "not_contains" clause) ctx =
     negb (evaluateClause (with_operator "contains" clause) ctx) /\
   evaluateClause (with_operator "not_in" clause) ctx =
     negb (evaluateClause (with_operator "in" clause) ctx)).
Proof.
  split.
  - intros E. unfold evaluateClause. rewrite E. reflexivity.
  - intros [a E]. unfold evaluateClause, with_operator; simpl.
    rewrite E. auto.
Qed.

Lemma existsb_parse (cmp : number -> number -> bool) (t : number)
    (vs : list string) :
  existsb (fun v => negb (isNaN (parseFloat v)) && cmp (parseFloat v) t) vs = true <->
  exists v, In v vs /\ isNaN (parseFloat v) = false /\ cmp (parseFloat v) t = true.
Proof.
  rewrite existsb_exists. split; intros (v & Hin & Hv); exists v.
  - apply andb_prop in Hv as [Hn Hc]. apply negb_true_iff in Hn. auto.
  - destruct Hv as [-> ->]. auto.
Qed.

(** C5. Under [gt], [gte], [lt] and [lte] a clause matches iff the
    attribute is present, the clause has a value whose target parses
    to a number, and some value of the attribute parses to a number
    that stands in the operator's relation to the target.  A value or
    a target that does not parse yields no match and no error:
    [evaluateClause] is a total boolean function. *)
Theorem numeric_operators_match (clause : RuleCondition) (ctx : Context)
    (cmp : number -> number -> bool) :
  comparison_of (operator clause) = Some cmp ->
  (evaluateClause clause ctx = true <->
   exists attr cv,
     getAttribute ctx (attribute clause) = Some attr /\
     clause_value clause = Some cv /\
     isNaN (parseFloat (str (target_of cv))) = false /\
     exists v,
       In v (getValues attr) /\
       isNaN (parseFloat v) = false /\
       cmp (parseFloat v) (parseFloat (str (target_of cv))) = true).
Proof.
  unfold comparison_of, evaluateClause.
  destruct (getAttribute ctx (attribute clause)) as [attr|];
    [|intros _; split; [discriminate | intros (? & ? & [=] & _)]].
  assert (Hgen : forall b : bool,
    (b = true <->
     match clause_value clause with
     | None => False
     | Some cv =>
         isNaN (parseFloat (str (target_of cv))) = false /\
         exists v, In v (getValues attr) /\ isNaN (parseFloat v) = false /\
                   cmp (parseFloat v) (parseFloat (str (target_of cv))) = true
     end) ->
    (b = true <->
     exists attr0 cv, Some attr = Some attr0 /\ clause_value clause = Some cv /\
       isNaN (parseFloat (str (target_of cv))) = false /\
       exists v, In v (getValues attr0) /\ isNaN (parseFloat v) = false /\
                 cmp (parseFloat v) (parseFloat (str (target_of cv))) = true)).
  { intros b ->. destruct (clause_value clause) as [cv|].
    - split.
      + intros [Ht Hv]. exists attr, cv. auto.
      + intros (a0 & cv0 & [= <-] & [= <-] & Ht & Hv). auto.
    - split; [tauto|]. intros (? & ? & _ & [=] & _). }
  destruct (String.eqb_spec (operator clause) "gt") as [->|?];
    [intros [= <-]; simpl|].
  2: destruct (String.eqb_spec (operator clause) "gte") as [->|?];
    [intros [= <-]; simpl|].
  3: destruct (String.eqb_spec (operator clause) "lt") as [->|?];
    [intros [= <-]; simpl|].
  4: destruct (String.eqb_spec (operator clause) "lte") as [->|?];
    [intros [= <-]; simpl|discriminate].
  all: apply Hgen.
  all: unfold evaluateGreaterThan, evaluateGreaterThanOrEqual,
         evaluateLessThan, evaluateLessThanOrEqual.
  all: destruct (clause_value clause) as [cv|]; [|split; [discriminate|tauto]].
  all: simpl; destruct (isNaN (parseFloat (str (target_of cv)))) eqn:Ht;
         [split; [discriminate | intros [[=] _]]|].
  all: rewrite existsb_parse; tauto.
Qed.

(** C10. When the attribute is present and the clause has no value,
    the clause does not match under [equals], [contains], [in],
    [starts_with], [ends_with], [gt], [gte], [lt] and [lte], and it
    matches under [not_equals], [not_contains] and [not_in]. *)
Theorem undefined_value_clause (clause : RuleCondition) (ctx : Context) :
  is_Some (getAttribute ctx (attribute clause)) ->
  clause_value clause = None ->
  (In (operator clause) positive_operators -> evaluateClause clause ctx = false) /\
  (In (operator clause) negated_operators -> evaluateClause clause ctx = true).
Proof.
  intros [a E] Hv. unfold evaluateClause. rewrite E, Hv.
  unfold positive_operators, negated_operators. simpl.
  split; intros Hop;
    repeat (destruct Hop as [<- | Hop]; [reflexivity|]); contradiction.
Qed.

End RuleEngineFacts.

(** ** Flag accessors *)

Section FlagFacts.
Context `{JsNumber}.

(** C8, as amended. [getValue] inspects the keys in the order
    boolean, string, number; [asBool] in the order boolean, number,
    string; [asString] in the order string, boolean, number;
    [asNumber] in the order number, string, boolean; each then falls
    back to the first property of the envelope. *)
Theorem accessors_preference_order (f : Flag) :
  accessors_follow
    ["boolean"; "number"; "string"]
    ["string"; "boolean"; "number"]
    ["number"; "string"; "boolean"]
    ["boolean"; "string"; "number"] f.
Proof.
  unfold accessors_follow, asBool, asString, asNumber, getValue,
    asBool_in, asString_in, asNumber_in, getValue_in, first_present.
  simpl.
  destruct (has_key "boolean" (envelope f)),
           (has_key "string" (envelope f)),
           (has_key "number" (envelope f));
    simpl; repeat split; try reflexivity;
    destruct (is_undefined (first_value (envelope f))); reflexivity.
Qed.

(** C9. A flag whose type is not boolean is not enabled, also when
    its value is a non-empty string, where [asBool] is true. *)
Theorem isEnabled_non_boolean (f : Flag) :
  getType f <> "boolean" ->
  isEnabled f = false /\
  (forall s, envelope f = [("string", JsStr s)] -> s <> "" -> asBool f = true).
Proof.
  intros Hty. split.
  - unfold isEnabled.
    destruct (String.eqb_spec (getType f) "boolean"); [contradiction|reflexivity].
  - intros s E Hs. unfold asBool. rewrite E. simpl.
    destruct (String.eqb_spec s ""); [contradiction|reflexivity].
Qed.

End FlagFacts.

(** ** The in-memory cache *)

Section InMemoryCacheFacts.
Context `{JsNumber}.
Import InMemoryCache.

Lemma get_hit (key : string) (now : number) (storage : gmap string Item) (v : string) :
  (get key now storage).1 = Some v <->
  exists item,
    storage !! key = Some item /\ item_value item = v /\
    (expires item = None \/
     exists e, expires item = Some e /\ num_lt e now = false).
Proof.
  unfold get. destruct (storage !! key) as [item|] eqn:E; simpl.
  - destruct (expires item) as [e|] eqn:Ee.
    + destruct (num_lt e now) eqn:Hlt; simpl.
      * split; [discriminate|].
        intros (i & [= <-] & _ & [Hn | (e' & He' & Hf)]); congruence.
      * split.
        -- intros [= <-]. exists item. repeat split; eauto.
        -- intros (i & [= <-] & <- & _). reflexivity.
    + simpl. split.
      * intros [= <-]. exists item. repeat split; auto.
      * intros (i & [= <-] & <- & _). reflexivity.
  - split; [discriminate|]. intros (i & [=] & _).
Qed.

(** C7. A read returns the stored value iff the entry exists and has
    no expiry or an expiry that is not before the time of the read;
    an expired entry is deleted by the read and reported absent; any
    other read leaves the store as it was; an entry set without ttl
    is returned at every later time; [has] is [get] with the value
    forgotten; and no operation on another key removes an entry,
    expired or not. *)
Theorem memory_cache_lazy_expiry (key : string) (now : number)
    (storage : gmap string Item) :
  (forall v,
     (get key now storage).1 = Some v <->
     exists item,
       storage !! key = Some item /\ item_value item = v /\
       (expires item = None \/
        exists e, expires item = Some e /\ num_lt e now = false)) /\
  (forall item e,
     storage !! key = Some item -> expires item = Some e ->
     num_lt e now = true ->
     get key now storage = (None, base.delete key storage)) /\
  (forall v, (get key now storage).1 = Some v -> (get key now storage).2 = storage) /\
  (storage !! key = None -> get key now storage = (None, storage)) /\
  (forall v t later,
     get key later (set key v None t storage) =
     (Some v, set key v None t storage)) /\
  has key now storage =
    (bool_decide (is_Some (get key now storage).1), (get key now storage).2) /\
  (forall other, other <> key ->
     (get other now storage).2 !! key = storage !! key /\
     (forall v ttl, set other v ttl now storage !! key = storage !! key) /\
     delete other storage !! key = storage !! key).
Proof.
  split; [intros v; apply get_hit|].
  split.
  { intros item e E Ee Hlt. unfold get. rewrite E, Ee, Hlt. reflexivity. }
  split.
  { intros v. unfold get. destruct (storage !! key) as [item|]; [|discriminate].
    destruct (expires item) as [e|]; [|reflexivity].
    destruct (num_lt e now); [discriminate|reflexivity]. }
  split.
  { intros E. unfold get. rewrite E. reflexivity. }
  split.
  { intros v t later. unfold get, set. rewrite lookup_insert_eq. reflexivity. }
  split.
  { unfold has. destruct (get key now storage) as [[v|] s]; reflexivity. }
  intros other Hne. split; [|split].
  - unfold get. destruct (storage !! other) as [item|]; [|reflexivity].
    destruct (expires item) as [e|]; [|reflexivity].
    destruct (num_lt e now); [|reflexivity].
    simpl. apply lookup_delete_ne. exact Hne.
  - intros v ttl. unfold set. apply lookup_insert_ne. exact Hne.
  - unfold delete. apply lookup_delete_ne. exact Hne.
Qed.

End InMemoryCacheFacts.

(** ** Flag manager *)

Section FlagManagerFacts.
Context `{JsNumber} {C : Type} `{!Cache C}.
Variable JSON_stringify : RulesResponse -> string.
Variable JSON_parse : string -> option (option (list FlagData)).
Import FlagManager.

Abbreviation single := (FlagManager.single JSON_stringify JSON_parse).
Abbreviation loadRulesFromApi := (FlagManager.loadRulesFromApi JSON_stringify).
Abbreviation ensureRulesLoaded :=
  (FlagManager.ensureRulesLoaded JSON_stringify JSON_parse).

Lemma lookup_flag_Some (key : string) (fs : list Flag) (flag : Flag) :
  lookup_flag key fs = Some flag <->
  exists pre post,
    fs = pre ++ flag :: post /\ getKey flag = key /\
    Forall (fun f => getKey f <> key) pre.
Proof.
  induction fs as [|x rest IH]; simpl.
  - split; [discriminate|].
    intros (pre & post & E & _). destruct pre; discriminate.
  - destruct (String.eqb_spec (getKey x) key) as [Hx|Hx].
    + split.
      * intros [= <-]. exists [], rest. auto.
      * intros (pre & post & E & Hk & Hpre).
        destruct pre as [|y pre]; simpl in E.
        -- congruence.
        -- injection E as <- _. inversion Hpre; contradiction.
    + rewrite IH. split.
      * intros (pre & post & -> & Hk & Hpre).
        exists (x :: pre), post. auto.
      * intros (pre & post & E & Hk & Hpre).
        destruct pre as [|y pre]; simpl in E.
        -- injection E as -> _. contradiction.
        -- injection E as <- ->. inversion Hpre; subst. eauto.
Qed.

Lemma lookup_flag_None (key : string) (fs : list Flag) :
  lookup_flag key fs = None <-> Forall (fun f => getKey f <> key) fs.
Proof.
  induction fs as [|x rest IH]; simpl.
  - split; auto.
  - destruct (String.eqb_spec (getKey x) key) as [Hx|Hx].
    + split; [discriminate|]. inversion 1; contradiction.
    + rewrite IH. split; [auto|]. inversion 1; auto.
Qed.

Lemma ensureRulesLoaded_loaded (env : Env) (w : World) (fs : list Flag) :
  flags (this w) = Some fs -> ensureRulesLoaded env w = (inr tt, w).
Proof.
  intros E. unfold FlagManager.ensureRulesLoaded, bind, get_this.
  rewrite E. reflexivity.
Qed.

(** What [single] returns once rules are loaded. *)
Lemma single_loaded (key : string) (defaultValue : option FlagValue)
    (env : Env) (w : World) (fs : list Flag) :
  flags (this w) = Some fs ->
  (single key defaultValue env w).1 =
  match lookup_flag key fs with
  | Some flag => inr (evaluateFlag (this w) flag)
  | None =>
      match defaultValue with
      | Some dv => inr (createFlagFromDefault key dv)
      | None =>
          match defaults (this w) !! key with
          | Some dv => inr (createFlagFromDefault key dv)
          | None => inl (EvaluationError ("Flag not found: " +:+ key))
          end
      end
  end.
Proof.
  intros E. unfold FlagManager.single, bind.
  rewrite (ensureRulesLoaded_loaded env w fs E).
  unfold get_this. rewrite E.
  destruct (lookup_flag key fs) as [flag|].
  - unfold reportUsage, ret.
    destruct (enableUsageReporting (this w)); reflexivity.
  - destruct defaultValue as [dv|].
    + unfold reportUsage, ret.
      destruct (enableUsageReporting (this w)); reflexivity.
    + unfold DefaultsCollection.has, DefaultsCollection.get.
      destruct (defaults (this w) !! key) as [dv|]; [|reflexivity].
      unfold reportUsage, ret.
      destruct (enableUsageReporting (this w)); reflexivity.
Qed.

Lemma createFlagFromDefault_synthesized (key : string) (dv : FlagValue) :
  synthesized_from key dv (createFlagFromDefault key dv).
Proof.
  unfold synthesized_from. destruct dv as [b|s|n]; simpl; repeat split; reflexivity.
Qed.

(** C3. With rules loaded, [single] returns the evaluation of the
    first loaded flag that has the key, whatever the defaults; when no
    loaded flag has the key it returns the flag made from the default
    of the call if one is given, whatever the defaults collection
    holds; else the flag made from the entry of the defaults
    collection if there is one; else it fails with an
    [EvaluationError].  The flag made from a default is synthesized
    from it: it has the key as key and name, no rules, the default as
    raw value, the type of the default, and returns the default from
    the accessor of that type. *)
Theorem single_default_priority (key : string) (defaultValue : option FlagValue)
    (env : Env) (w : World) (fs : list Flag) :
  flags (this w) = Some fs ->
  (forall flag pre post,
     fs = pre ++ flag :: post -> getKey flag = key ->
     Forall (fun f => getKey f <> key) pre ->
     (single key defaultValue env w).1 = inr (evaluateFlag (this w) flag)) /\
  (Forall (fun f => getKey f <> key) fs ->
   (forall dv, defaultValue = Some dv ->
      (single key defaultValue env w).1 = inr (createFlagFromDefault key dv) /\
      synthesized_from key dv (createFlagFromDefault key dv)) /\
   (forall dv, defaultValue = None -> defaults (this w) !! key = Some dv ->
      (single key defaultValue env w).1 = inr (createFlagFromDefault key dv) /\
      synthesized_from key dv (createFlagFromDefault key dv)) /\
   (defaultValue = None -> defaults (this w) !! key = None ->
      (single key defaultValue env w).1 =
      inl (EvaluationError ("Flag not found: " +:+ key)))).
Proof.
  intros E. rewrite (single_loaded key defaultValue env w fs E). split.
  - intros flag pre post Hfs Hk Hpre.
    assert (Hl : lookup_flag key fs = Some flag)
      by (apply lookup_flag_Some; eauto).
    rewrite Hl. reflexivity.
  - intros Hnone. apply lookup_flag_None in Hnone. rewrite Hnone.
    split; [|split].
    + intros dv ->. split; [reflexivity | apply createFlagFromDefault_synthesized].
    + intros dv -> ->. split; [reflexivity | apply createFlagFromDefault_synthesized].
    + intros -> ->. reflexivity.
Qed.

(** C4. A flag without rules evaluates to itself; so does a flag none
    of whose rules matches; when a rule matches, the result has the
    version, type, key, name and rules of the flag, the value of the
    matched rule as the value of its target, and the version and the
    three timestamps of the flag's target. *)
Theorem evaluateFlag_frame (m : FlagManager.t) (F : Flag) :
  (getRules F = [] -> evaluateFlag m F = F) /\
  (RuleEngine.evaluate (getRules F) (context m) = None -> evaluateFlag m F = F) /\
  (forall r,
     RuleEngine.evaluate (getRules F) (context m) = Some r ->
     let F' := evaluateFlag m F in
     getVersion F' = getVersion F /\
     getType F' = getType F /\
     getKey F' = getKey F /\
     getName F' = getName F /\
     getRules F' = getRules F /\
     target_value (getTarget F') = rule_value r /\
     target_version (getTarget F') = target_version (getTarget F) /\
     expired_at (getTarget F') = expired_at (getTarget F) /\
     published_at (getTarget F') = published_at (getTarget F) /\
     scheduled_at (getTarget F') = scheduled_at (getTarget F)).
Proof.
  unfold evaluateFlag. split; [|split].
  - intros ->. reflexivity.
  - intros ->. destruct (getRules F); reflexivity.
  - intros r Hr. destruct (getRules F) as [|x rest] eqn:Erules.
    + discriminate.
    + rewrite Hr. simpl. repeat split; reflexivity.
Qed.

(** C6. When the fetch fails, [loadRulesFromApi] throws the failure of
    the fetch and leaves the flag list empty, not unloaded, and the
    cache as it was; when the fetch succeeds it returns, the flag list
    is the flags of the document, and the cache has received the
    serialized document under [CACHE_KEY] with the ttl of the manager.
    The other fields of the manager are kept in both cases. *)
Theorem loadRulesFromApi_outcome (env : Env) (w : World) :
  let result := (loadRulesFromApi env w).1 in
  let w' := (loadRulesFromApi env w).2 in
  (forall e,
     api_getRules env = inl e ->
     result = inl e /\
     flags (this w') = Some [] /\
     cache w' = cache w) /\
  (forall response,
     api_getRules env = inr response ->
     result = inr tt /\
     flags (this w') = Some (map fromObject (rr_flags response)) /\
     cache w' =
       cache_set CACHE_KEY (JSON_stringify response) (Some (cacheTtl (this w)))
         (now_write env) (cache w)) /\
  context (this w') = context (this w) /\
  defaults (this w') = defaults (this w) /\
  cacheTtl (this w') = cacheTtl (this w) /\
  usage w' = usage w.
Proof.
  unfold FlagManager.loadRulesFromApi, try_catch, bind.
  destruct (api_getRules env) as [e|response]; simpl.
  - split; [|split].
    + intros e' [= <-]. auto.
    + intros response [=].
    + auto.
  - split; [|split].
    + intros e [=].
    + intros response' [= <-]. auto.
    + auto.
Qed.

End FlagManagerFacts.

(** After a successful load over the in-memory cache, the document is
    stored under [CACHE_KEY] and expires [cacheTtl] seconds after the
    write. *)
Lemma loadRulesFromApi_memory_cache `{JsNumber}
    (JSON_stringify : RulesResponse -> string) (env : FlagManager.Env)
    (w : FlagManager.World (C := gmap string InMemoryCache.Item))
    (response : RulesResponse) :
  FlagManager.api_getRules env = inr response ->
  FlagManager.cache (FlagManager.loadRulesFromApi JSON_stringify env w).2
    !! FlagManager.CACHE_KEY =
  Some {| InMemoryCache.item_value := JSON_stringify response;
          InMemoryCache.expires :=
            Some (num_add (FlagManager.now_write env)
                    (num_mul (FlagManager.cacheTtl (FlagManager.this w))
                       (num_of_Z 1000))) |}.
Proof.
  intros E.
  unfold FlagManager.loadRulesFromApi, FlagManager.try_catch, FlagManager.bind.
  rewrite E. simpl. unfold InMemoryCache.set. apply lookup_insert_eq.
Qed.

(** ** The properties on the sample data *)

Section OnSamples.
Import DecNumber Samples.

(** The first matching rule wins, and no rule matches a context from
    elsewhere. *)
Example evaluate_samples :
  RuleEngine.evaluate [rule_us; rule_ca] ctx_us = Some rule_us /\
  RuleEngine.evaluate [rule_us; rule_ca] ctx_ca = Some rule_ca /\
  RuleEngine.evaluate [rule_us; rule_ca] ctx_uk = None.
Proof. repeat split; reflexivity. Qed.

(** A value that is no number is passed over; another one matches. *)
Example numeric_samples :
  RuleEngine.evaluateClause clause_adult ctx_age = true /\
  RuleEngine.evaluateClause (Samples.clause "age" "lt" "18") ctx_age = false /\
  RuleEngine.evaluateClause (Samples.clause "age" "gt" "old") ctx_age = false.
Proof. repeat split; reflexivity. Qed.

(** The flag is enabled for a US user and keeps its target for others. *)
Example evaluateFlag_samples :
  isEnabled (FlagManager.evaluateFlag manager flag_new_ui) = true /\
  FlagManager.evaluateFlag (FlagManager.withContext manager ctx_ca) flag_new_ui
    = flag_new_ui.
Proof. repeat split; reflexivity. Qed.

(** A default of the call wins over the defaults collection. *)
Example single_samples :
  (sum_map id asString
     (FlagManager.single stringify parse "x" (Some (FVString "A")) env_down world).1
   = inr "A") /\
  (sum_map id asString
     (FlagManager.single stringify parse "x" None env_down world).1
   = inr "B") /\
  (sum_map id asString
     (FlagManager.single stringify parse "y" None env_down world).1
   = inl (EvaluationError "Flag not found: y")).
Proof. repeat split; reflexivity. Qed.

(** An entry set with a ttl of 0.1 seconds is present at once and
    absent 150 ms later. *)
Example ttl_samples :
  let s := InMemoryCache.set "key1" "value1" (Some (DecNumber.Fin 1 (-1)))
             (DecNumber.of_Z 1000) ∅ in
  (InMemoryCache.get "key1" (DecNumber.of_Z 1000) s).1 = Some "value1" /\
  (InMemoryCache.get "key1" (DecNumber.of_Z 1100) s).1 = Some "value1" /\
  InMemoryCache.get "key1" (DecNumber.of_Z 1150) s = (None, ∅).
Proof. repeat split; reflexivity. Qed.

(** The first load of a fresh manager: from the API when it answers,
    with the document written to the cache; an error and an empty flag
    list when it does not. *)
Example load_samples :
  (FlagManager.single stringify parse "new-ui" None env_ok fresh_world).1
    = inr (fromObject document_flag) /\
  (FlagManager.loadRulesFromApi stringify env_down fresh_world).1 = inl fetch_error /\
  FlagManager.flags
    (FlagManager.this (FlagManager.loadRulesFromApi stringify env_down fresh_world).2)
    = Some [].
Proof. repeat split; reflexivity. Qed.

(** [single] on the sample manager, where [x] is not loaded and the
    defaults collection holds [B] for it: the default [A] of the call
    wins, and the flag returned reads as [A]. *)
Lemma single_default_priority_witness :
  FlagManager.flags (FlagManager.this world) = Some [flag_new_ui] /\
  (FlagManager.single stringify parse "x" (Some (FVString "A")) env_down world).1
  = inr (FlagManager.createFlagFromDefault "x" (FVString "A")) /\
  getKey (FlagManager.createFlagFromDefault "x" (FVString "A")) = "x" /\
  getValue (FlagManager.createFlagFromDefault "x" (FVString "A")) = JsStr "A" /\
  asString (FlagManager.createFlagFromDefault "x" (FVString "A")) = "A".
Proof.
  split; [reflexivity|].
  destruct (single_default_priority stringify parse "x" (Some (FVString "A"))
              env_down world [flag_new_ui] eq_refl) as [_ Habsent].
  destruct Habsent as [Hcall _].
  - repeat constructor. discriminate.
  - destruct (Hcall (FVString "A") eq_refl) as [Hres Hsyn].
    cbv beta delta [synthesized_from] in Hsyn.
    destruct Hsyn as (Hkey & _ & _ & Hvalue & _ & Hstring & _).
    split; [exact Hres|]. split; [exact Hkey|]. split; [exact Hvalue | exact Hstring].
Defined.

(** [age gt 18] on the attribute [age = abc, 21]. *)
Lemma numeric_operators_match_witness :
  comparison_of (operator clause_adult) = Some num_gt /\
  exists attr cv,
    getAttribute ctx_age (attribute clause_adult) = Some attr /\
    clause_value clause_adult = Some cv /\
    isNaN (parseFloat (RuleEngine.str (RuleEngine.target_of cv))) = false /\
    exists v,
      In v (getValues attr) /\
      isNaN (parseFloat v) = false /\
      num_gt (parseFloat v) (parseFloat (RuleEngine.str (RuleEngine.target_of cv))) = true.
Proof.
  split; [reflexivity|].
  apply (numeric_operators_match clause_adult ctx_age num_gt eq_refl).
  reflexivity.
Defined.

(** The string flag of the samples is not enabled, though [asBool]
    holds of it. *)
Lemma isEnabled_non_boolean_witness :
  getType flag_theme <> "boolean" /\
  isEnabled flag_theme = false /\ asBool flag_theme = true.
Proof.
  assert (Hty : getType flag_theme <> "boolean") by discriminate.
  destruct (isEnabled_non_boolean flag_theme Hty) as [Hoff Hbool].
  split; [exact Hty|]. split; [exact Hoff|].
  apply (Hbool "value"); [reflexivity | discriminate].
Defined.

(** [plan not_equals] without a value, on a context that has [plan]. *)
Lemma undefined_value_clause_witness :
  is_Some (getAttribute ctx_plan (attribute clause_no_value)) /\
  clause_value clause_no_value = None /\
  RuleEngine.evaluateClause clause_no_value ctx_plan = true.
Proof.
  assert (Hattr : is_Some (getAttribute ctx_plan (attribute clause_no_value)))
    by (exists (new_Attribute "plan" ["premium"]); reflexivity).
  split; [exact Hattr|]. split; [reflexivity|].
  apply (undefined_value_clause clause_no_value ctx_plan Hattr eq_refl).
  left. reflexivity.
Defined.

(** C8, as stated, fails on an envelope with a boolean and a string:
    [asString] returns the string, not the boolean printed. *)
Lemma accessors_boolean_first_counterexample :
  ~ accessors_follow boolean_string_number boolean_string_number
      boolean_string_number boolean_string_number flag_two_keys.
Proof.
  intros (_ & Hstring & _). vm_compute in Hstring. discriminate.
Qed.

End OnSamples.

(** * Further properties of the code *)

(** ** String methods *)

Section JsStringFacts.
Import JsString.

Lemma startsWith_spec (v t : string) :
  startsWith v t = true <-> exists s, v = t +:+ s.
Proof.
  unfold startsWith. revert v.
  induction t as [|a t IH]; intros v; destruct v as [|b v]; simpl.
  - split; [intros _; exists ""; reflexivity | reflexivity].
  - split; [intros _; exists (String b v); reflexivity | reflexivity].
  - split; [discriminate | intros [s [=]]].
  - destruct (ascii_dec a b) as [->|Hab].
    + rewrite IH. split.
      * intros [s ->]. exists s. reflexivity.
      * intros [s [= ->]]. exists s. reflexivity.
    + split; [discriminate|]. intros [s [= E _]]. congruence.
Qed.

Lemma includes_spec (v t : string) :
  includes v t = true <-> exists p s, v = p +:+ t +:+ s.
Proof.
  induction v as [|a v IH]; cbn [includes].
  - rewrite orb_false_r, startsWith_spec. split.
    + intros [s E]. exists "", s. exact E.
    + intros (p & s & E). destruct p as [|c p]; [|discriminate].
      exists s. exact E.
  - rewrite orb_true_iff, startsWith_spec, IH. split.
    + intros [[s E] | (p & s & ->)].
      * exists "", s. exact E.
      * exists (String a p), s. reflexivity.
    + intros (p & s & E). destruct p as [|c p]; simpl in E.
      * left. exists s. exact E.
      * injection E as <- ->. right. exists p, s. reflexivity.
Qed.

Lemma endsWith_spec (v t : string) :
  endsWith v t = true <-> exists p, v = p +:+ t.
Proof.
  induction v as [|a v IH]; cbn [endsWith].
  - rewrite orb_false_r, String.eqb_eq. split.
    + intros <-. exists "". reflexivity.
    + intros [p E]. destruct p as [|c p]; [exact E | discriminate].
  - rewrite orb_true_iff, String.eqb_eq, IH. split.
    + intros [<- | [p ->]].
      * exists "". reflexivity.
      * exists (String a p). reflexivity.
    + intros [p E]. destruct p as [|c p]; simpl in E.
      * left. exact E.
      * injection E as <- ->. right. exists p. reflexivity.
Qed.

End JsStringFacts.

(** ** More on the rule engine *)

Section RuleEngineMore.
Context `{JsNumber}.
Import RuleEngine.

(** The rules are tried in order across a concatenation: the second
    list is consulted only when no rule of the first matches. *)
Theorem evaluate_app (rules1 rules2 : list Rule) (ctx : Context) :
  evaluate (rules1 ++ rules2) ctx =
  match evaluate rules1 ctx with
  | Some r => Some r
  | None => evaluate rules2 ctx
  end.
Proof.
  induction rules1 as [|x rest IH]; simpl; [reflexivity|].
  destruct (evaluateRule x ctx); [reflexivity | exact IH].
Qed.

(** A clause whose operator is none of the twelve known ones does
    not match, whatever the context. *)
Theorem unknown_operator_never_matches (clause : RuleCondition) (ctx : Context) :
  ~ In (operator clause) (positive_operators ++ negated_operators) ->
  evaluateClause clause ctx = false.
Proof.
  intros Hop. unfold evaluateClause.
  destruct (getAttribute ctx (attribute clause)); [|reflexivity].
  repeat match goal with
  | |- (if String.eqb ?a ?b then _ else _) = _ =>
      destruct (String.eqb_spec a b) as [E|_];
      [exfalso; apply Hop; rewrite E; simpl; tauto|]
  end.
  reflexivity.
Qed.

Lemma no_attributes_clause (clause : RuleCondition) (ctx : Context) :
  attributes ctx = ∅ -> evaluateClause clause ctx = false.
Proof.
  intros E. unfold evaluateClause, getAttribute. rewrite E, lookup_empty.
  reflexivity.
Qed.

(** Against a context without attributes, the rules that match are
    those without conditions, so [evaluate] returns the first of them. *)
Theorem no_attributes_only_unconditional (rules : list Rule) (ctx : Context) :
  attributes ctx = ∅ ->
  (forall r,
     evaluateRule r ctx = true <->
     (clauses r = None \/ clauses r = Some []) /\ criteria r = None) /\
  (forall r,
     evaluate rules ctx = Some r ->
     (clauses r = None \/ clauses r = Some []) /\ criteria r = None).
Proof.
  intros E.
  assert (Hrule : forall r,
    evaluateRule r ctx = true <->
    (clauses r = None \/ clauses r = Some []) /\ criteria r = None).
  { intros r. unfold evaluateRule.
    destruct (clauses r) as [[|c cs]|].
    - destruct (criteria r) as [c|].
      + rewrite (no_attributes_clause c ctx E).
        split; [discriminate | intros [_ [=]]].
      + split; auto.
    - simpl. rewrite (no_attributes_clause c ctx E). simpl.
      split; [discriminate | intros [[[=]|[=]] _]].
    - destruct (criteria r) as [c|].
      + rewrite (no_attributes_clause c ctx E).
        split; [discriminate | intros [_ [=]]].
      + split; auto. }
  split; [exact Hrule|].
  intros r Hr. apply Hrule.
  induction rules as [|x rest IH]; simpl in Hr; [discriminate|].
  destruct (evaluateRule x ctx) eqn:Hx.
  - injection Hr as <-. exact Hx.
  - apply IH. exact Hr.
Qed.

(** A rule list that holds a rule without conditions yields a rule
    for every context. *)
Theorem catch_all_always_matches (rules : list Rule) (ctx : Context) (r : Rule) :
  In r rules ->
  clauses r = None \/ clauses r = Some [] ->
  criteria r = None ->
  exists r', evaluate rules ctx = Some r'.
Proof.
  intros Hin Hcl Hcr.
  assert (Hr : evaluateRule r ctx = true).
  { unfold evaluateRule. destruct Hcl as [-> | ->]; rewrite Hcr; reflexivity. }
  induction rules as [|x rest IH]; [contradiction|]. simpl.
  destruct (evaluateRule x ctx) eqn:Hx; [eauto|].
  destruct Hin as [-> | Hin]; [congruence | auto].
Qed.

Lemma existsb_strict_eq (vs : list string) (target : option string) :
  existsb (fun v => strict_eq v target) vs = true <->
  exists t, target = Some t /\ In t vs.
Proof.
  rewrite existsb_exists. unfold strict_eq. split.
  - intros (v & Hin & Hv). destruct target as [t|]; [|discriminate].
    apply String.eqb_eq in Hv. subst. eauto.
  - intros (t & -> & Hin). exists t. split; [exact Hin | apply String.eqb_refl].
Qed.

(** With the attribute present and a clause value, [equals] matches
    iff the target, the value or the first element of the array, is
    among the values of the attribute, and [not_equals] iff it is not:
    one equal value among several is enough to defeat [not_equals]. *)
Theorem equals_operators (clause : RuleCondition) (ctx : Context)
    (attr : Attribute) (cv : ClauseValue) :
  getAttribute ctx (attribute clause) = Some attr ->
  clause_value clause = Some cv ->
  (operator clause = "equals" ->
   (evaluateClause clause ctx = true <->
    exists t, target_of cv = Some t /\ In t (getValues attr))) /\
  (operator clause = "not_equals" ->
   (evaluateClause clause ctx = true <->
    ~ exists t, target_of cv = Some t /\ In t (getValues attr))).
Proof.
  intros Ha Hv. unfold evaluateClause. rewrite Ha, Hv.
  split; intros ->; simpl.
  - apply existsb_strict_eq.
  - rewrite negb_true_iff, <- not_true_iff_false, existsb_strict_eq. reflexivity.
Qed.

Lemma existsb_member (vs targets : list string) :
  existsb (fun v => existsb (String.eqb v) targets) vs = true <->
  exists v, In v vs /\ In v targets.
Proof.
  rewrite existsb_exists. split.
  - intros (v & Hin & Hv). apply existsb_exists in Hv as (t & Ht & Hvt).
    apply String.eqb_eq in Hvt. subst. eauto.
  - intros (v & Hin & Ht). exists v. split; [exact Hin|].
    apply existsb_exists. exists v. split; [exact Ht | apply String.eqb_refl].
Qed.

(** With the attribute present, [in] with an array matches iff the
    attribute and the array share a value, [in] with a single string
    iff that string is a value of the attribute, and [not_in] iff
    [in] does not. *)
Theorem in_operators (clause : RuleCondition) (ctx : Context) (attr : Attribute) :
  getAttribute ctx (attribute clause) = Some attr ->
  (forall targets,
     operator clause = "in" -> clause_value clause = Some (CVArray targets) ->
     (evaluateClause clause ctx = true <->
      exists v, In v (getValues attr) /\ In v targets)) /\
  (forall s,
     operator clause = "in" -> clause_value clause = Some (CVString s) ->
     (evaluateClause clause ctx = true <-> In s (getValues attr))) /\
  (forall targets,
     operator clause = "not_in" -> clause_value clause = Some (CVArray targets) ->
     (evaluateClause clause ctx = true <->
      forall v, In v (getValues attr) -> ~ In v targets)).
Proof.
  intros Ha. unfold evaluateClause. rewrite Ha.
  split; [|split].
  - intros targets -> ->. simpl. apply existsb_member.
  - intros s -> ->. cbn -[existsb]. rewrite existsb_member. split.
    + intros (v & Hin & [<- | []]). exact Hin.
    + intros Hin. exists s. simpl. auto.
  - intros targets -> ->. simpl.
    rewrite negb_true_iff, <- not_true_iff_false, existsb_member. split.
    + intros Hno v Hv Ht. apply Hno. eauto.
    + intros Hall (v & Hv & Ht). exact (Hall v Hv Ht).
Qed.

(** With the attribute present and a string as clause value,
    [contains] matches iff the target occurs inside some value of the
    attribute, [starts_with] iff some value begins with it, and
    [ends_with] iff some value ends with it. *)
Theorem substring_operators (clause : RuleCondition) (ctx : Context)
    (attr : Attribute) (t : string) :
  getAttribute ctx (attribute clause) = Some attr ->
  clause_value clause = Some (CVString t) ->
  (operator clause = "contains" ->
   (evaluateClause clause ctx = true <->
    exists v p s, In v (getValues attr) /\ v = p +:+ t +:+ s)) /\
  (operator clause = "starts_with" ->
   (evaluateClause clause ctx = true <->
    exists v s, In v (getValues attr) /\ v = t +:+ s)) /\
  (operator clause = "ends_with" ->
   (evaluateClause clause ctx = true <->
    exists v p, In v (getValues attr) /\ v = p +:+ t)).
Proof.
  intros Ha Hv. unfold evaluateClause. rewrite Ha, Hv.
  split; [|split]; intros ->; simpl; rewrite existsb_exists.
  - split.
    + intros (v & Hin & Hv'). apply includes_spec in Hv' as (p & s & E). eauto.
    + intros (v & p & s & Hin & E). exists v. split; [exact Hin|].
      apply includes_spec. eauto.
  - split.
    + intros (v & Hin & Hv'). apply startsWith_spec in Hv' as (s & E). eauto.
    + intros (v & s & Hin & E). exists v. split; [exact Hin|].
      apply startsWith_spec. eauto.
  - split.
    + intros (v & Hin & Hv'). apply endsWith_spec in Hv' as (p & E). eauto.
    + intros (v & p & Hin & E). exists v. split; [exact Hin|].
      apply endsWith_spec. eauto.
Qed.

(** An attribute that is present without any value matches no clause
    under a positive operator and every clause under a negated one,
    with or without a clause value. *)
Theorem attribute_without_values (clause : RuleCondition) (ctx : Context)
    (attr : Attribute) :
  getAttribute ctx (attribute clause) = Some attr ->
  getValues attr = [] ->
  (In (operator clause) positive_operators -> evaluateClause clause ctx = false) /\
  (In (operator clause) negated_operators -> evaluateClause clause ctx = true).
Proof.
  intros Ha Hvs. unfold evaluateClause. rewrite Ha, Hvs.
  unfold positive_operators, negated_operators.
  split; intros Hop; simpl in Hop;
    repeat (destruct Hop as [<- | Hop];
            [simpl;
             unfold evaluateEquals, evaluateContains, evaluateIn,
               evaluateStartsWith, evaluateEndsWith, evaluateGreaterThan,
               evaluateGreaterThanOrEqual, evaluateLessThan, evaluateLessThanOrEqual;
             destruct (clause_value clause) as [cv|]; simpl; try reflexivity;
             destruct (isNaN (parseFloat (str (target_of cv)))); reflexivity|]);
    contradiction.
Qed.

(** With the attribute present and an empty array as clause value,
    [equals] and [in] match nothing, so [not_equals] and [not_in]
    match. *)
Theorem empty_array_clause_value (clause : RuleCondition) (ctx : Context) :
  is_Some (getAttribute ctx (attribute clause)) ->
  clause_value clause = Some (CVArray []) ->
  (In (operator clause) ["equals"; "in"] -> evaluateClause clause ctx = false) /\
  (In (operator clause) ["not_equals"; "not_in"] -> evaluateClause clause ctx = true).
Proof.
  intros [attr Ha] Hv. unfold evaluateClause. rewrite Ha, Hv.
  assert (He : forall vs : list string,
            existsb (fun v => strict_eq v None) vs = false)
    by (induction vs; simpl; auto).
  assert (Hi : forall vs : list string,
            existsb (fun v => existsb (String.eqb v) []) vs = false)
    by (induction vs; simpl; auto).
  split; intros Hop; simpl in Hop;
    repeat (destruct Hop as [<- | Hop];
            [simpl; rewrite ?He, ?Hi; reflexivity|]);
    contradiction.
Qed.

End RuleEngineMore.

(** ** More on flags *)

Section FlagMore.
Context `{JsNumber}.

(** [fromObject] undoes [toJSON], and [toJSON] undoes [fromObject] up
    to the rules, which come back as an array also when the data had
    none. *)
Theorem flag_json_round_trip (f : Flag) (data : FlagData) :
  fromObject (Flag_toJSON f) = f /\
  Flag_toJSON (fromObject data) =
    {| fd_version := fd_version data; fd_type := fd_type data;
       fd_key := fd_key data; fd_name := fd_name data;
       fd_target := fd_target data;
       fd_rules := Some (match fd_rules data with Some rs => rs | None => [] end) |}.
Proof.
  split; [destruct f; reflexivity | reflexivity].
Qed.

(** A flag made from a default carries the key as key and name, has
    no rules, gives the default back through [getValue], has the type
    of the default, and gives the default back through the accessor of
    that type; made from a boolean it is enabled iff the boolean is
    true, made from anything else it is not enabled. *)
Theorem default_flag_accessors (k : string) (v : FlagValue) :
  let f := FlagManager.createFlagFromDefault k v in
  getKey f = k /\ getName f = k /\ getRules f = [] /\
  getValue f = FlagValue_to_js v /\
  match v with
  | FVBool b => getType f = "boolean" /\ asBool f = b /\ isEnabled f = b
  | FVString s => getType f = "string" /\ asString f = s /\ isEnabled f = false
  | FVNumber n => getType f = "number" /\ asNumber f = n /\ isEnabled f = false
  end.
Proof.
  destruct v as [b|s|n]; simpl; repeat split; reflexivity.
Qed.

(** On a flag of type boolean whose envelope has the key [boolean],
    [isEnabled] and [asBool] agree; without that key the flag counts
    as enabled, whatever else the envelope holds. *)
Theorem isEnabled_boolean_flag (f : Flag) :
  getType f = "boolean" ->
  (has_key "boolean" (envelope f) = true -> isEnabled f = asBool f) /\
  (has_key "boolean" (envelope f) = false -> isEnabled f = true).
Proof.
  intros Hty. unfold isEnabled, asBool. rewrite Hty. simpl.
  split; intros ->; reflexivity.
Qed.

End FlagMore.

(** ** More on the flag manager *)

Section FlagManagerMore.
Context `{JsNumber} {C : Type} `{!Cache C}.
Variable JSON_stringify : RulesResponse -> string.
Variable JSON_parse : string -> option (option (list FlagData)).
Import FlagManager.

Abbreviation single := (FlagManager.single JSON_stringify JSON_parse).
Abbreviation all := (FlagManager.all JSON_stringify JSON_parse).
Abbreviation loadRulesFromApi := (FlagManager.loadRulesFromApi JSON_stringify).
Abbreviation refreshRules := (FlagManager.refreshRules JSON_stringify).
Abbreviation ensureRulesLoaded :=
  (FlagManager.ensureRulesLoaded JSON_stringify JSON_parse).

Lemma evaluateFlag_matched (m : FlagManager.t) (f : Flag) (r : Rule) :
  RuleEngine.evaluate (getRules f) (context m) = Some r ->
  evaluateFlag m f =
  {| getVersion := getVersion f; getType := getType f; getKey := getKey f;
     getName := getName f;
     getTarget :=
       {| target_version := target_version (getTarget f);
          expired_at := expired_at (getTarget f);
          published_at := published_at (getTarget f);
          scheduled_at := scheduled_at (getTarget f);
          target_value := rule_value r |};
     getRules := getRules f |}.
Proof.
  intros Hr. unfold evaluateFlag.
  destruct (getRules f) as [|x rest] eqn:E; [discriminate|].
  rewrite Hr. reflexivity.
Qed.

Lemma evaluateFlag_unmatched (m : FlagManager.t) (f : Flag) :
  RuleEngine.evaluate (getRules f) (context m) = None -> evaluateFlag m f = f.
Proof.
  intros Hr. unfold evaluateFlag.
  destruct (getRules f) as [|x rest] eqn:E; [reflexivity|].
  rewrite Hr. reflexivity.
Qed.

Lemma evaluateFlag_identity (m : FlagManager.t) (f : Flag) :
  getKey (evaluateFlag m f) = getKey f /\
  getType (evaluateFlag m f) = getType f /\
  getRules (evaluateFlag m f) = getRules f.
Proof.
  destruct (RuleEngine.evaluate (getRules f) (context m)) as [r|] eqn:Hr.
  - rewrite (evaluateFlag_matched m f r Hr). auto.
  - rewrite (evaluateFlag_unmatched m f Hr). auto.
Qed.

(** Evaluating an evaluated flag against the same context changes
    nothing more. *)
Theorem evaluateFlag_idempotent (m : FlagManager.t) (f : Flag) :
  evaluateFlag m (evaluateFlag m f) = evaluateFlag m f.
Proof.
  destruct (RuleEngine.evaluate (getRules f) (context m)) as [r|] eqn:Hr.
  - rewrite (evaluateFlag_matched m f r Hr).
    rewrite (evaluateFlag_matched m _ r); [reflexivity | exact Hr].
  - rewrite (evaluateFlag_unmatched m f Hr).
    apply evaluateFlag_unmatched. exact Hr.
Qed.

Lemma ensureRulesLoaded_noop (env : Env) (w : World) :
  is_Some (flags (this w)) -> ensureRulesLoaded env w = (inr tt, w).
Proof.
  intros [fs E]. unfold FlagManager.ensureRulesLoaded, bind, get_this.
  rewrite E. reflexivity.
Qed.

Lemma loadRulesFromApi_loads (env : Env) (w : World) :
  is_Some (flags (this (loadRulesFromApi env w).2)).
Proof.
  unfold FlagManager.loadRulesFromApi, try_catch, bind.
  destruct (api_getRules env); simpl; eauto.
Qed.

Lemma ensureRulesLoaded_loads (env : Env) (w : World) :
  is_Some (flags (this (ensureRulesLoaded env w).2)).
Proof.
  destruct (flags (this w)) as [fs|] eqn:E.
  - rewrite ensureRulesLoaded_noop; [|eauto]. simpl. rewrite E. eauto.
  - unfold FlagManager.ensureRulesLoaded, bind, get_this. rewrite E.
    unfold cache_read.
    destruct (cache_get CACHE_KEY (now_read env) (cache w)) as [[text|] c'].
    + destruct (JSON_parse text) as [[fs|]|].
      * simpl. eauto.
      * apply loadRulesFromApi_loads.
      * apply loadRulesFromApi_loads.
    + apply loadRulesFromApi_loads.
Qed.

(** Whatever the first load does, return or throw, it leaves the
    manager loaded, and loading again changes nothing and fetches
    nothing. *)
Theorem ensureRulesLoaded_once (env env' : Env) (w : World) :
  is_Some (flags (this (ensureRulesLoaded env w).2)) /\
  ensureRulesLoaded env' (ensureRulesLoaded env w).2 =
    (inr tt, (ensureRulesLoaded env w).2).
Proof.
  split; [apply ensureRulesLoaded_loads|].
  apply ensureRulesLoaded_noop, ensureRulesLoaded_loads.
Qed.

Lemma reportUsage_keeps (k : string) (ctx : Context) (w : World (C := C)) :
  (reportUsage k ctx w).1 = inr tt /\
  this (reportUsage k ctx w).2 = this w /\
  cache (reportUsage k ctx w).2 = cache w.
Proof.
  unfold reportUsage. destruct (enableUsageReporting (this w)); auto.
Qed.

Lemma single_after_load (key : string) (defaultValue : option FlagValue)
    (env : Env) (w : World) :
  this (single key defaultValue env w).2 = this (ensureRulesLoaded env w).2.
Proof.
  unfold FlagManager.single, bind.
  destruct (ensureRulesLoaded env w) as [[e|[]] w1]; [reflexivity|].
  unfold get_this. simpl.
  destruct (lookup_flag key _).
  - destruct (reportUsage key (context (this w1)) w1) as [[e|[]] w2] eqn:Er;
      pose proof (reportUsage_keeps key (context (this w1)) w1) as (H1 & H2 & _);
      rewrite Er in H1, H2; simpl in *; [discriminate | exact H2].
  - destruct defaultValue as [dv|].
    + destruct (reportUsage key (context (this w1)) w1) as [[e|[]] w2] eqn:Er;
        pose proof (reportUsage_keeps key (context (this w1)) w1) as (H1 & H2 & _);
        rewrite Er in H1, H2; simpl in *; [discriminate | exact H2].
    + destruct (DefaultsCollection.has key (defaults (this w1))); [|reflexivity].
      destruct (DefaultsCollection.get key (defaults (this w1))); [|reflexivity].
      destruct (reportUsage key (context (this w1)) w1) as [[e|[]] w2] eqn:Er;
        pose proof (reportUsage_keeps key (context (this w1)) w1) as (H1 & H2 & _);
        rewrite Er in H1, H2; simpl in *; [discriminate | exact H2].
Qed.

Lemma single_with_default_loaded (key : string) (dv : FlagValue) (env : Env)
    (w : World) :
  is_Some (flags (this w)) -> exists f, (single key (Some dv) env w).1 = inr f.
Proof.
  intros Hl. unfold FlagManager.single, bind.
  rewrite (ensureRulesLoaded_noop env w Hl). unfold get_this.
  destruct (lookup_flag key _).
  - unfold reportUsage, ret.
    destruct (enableUsageReporting (this w)); simpl; eauto.
  - unfold reportUsage, ret.
    destruct (enableUsageReporting (this w)); simpl; eauto.
Qed.

(** On a loaded manager a call of [single] with a default returns a
    flag; and after any call of [single], returned or thrown, from any
    state, every later call with a default returns a flag: only the
    first load can fail a caller who passes defaults. *)
Theorem default_insulates_after_first_call (key : string) (dv : FlagValue)
    (env : Env) (w : World) :
  (is_Some (flags (this w)) -> exists f, (single key (Some dv) env w).1 = inr f) /\
  (forall key0 dv0 env0,
     exists f, (single key (Some dv) env (single key0 dv0 env0 w).2).1 = inr f).
Proof.
  split; [apply single_with_default_loaded|].
  intros key0 dv0 env0. apply single_with_default_loaded.
  rewrite single_after_load. apply ensureRulesLoaded_loads.
Qed.

(** On a loaded manager [single] leaves the manager and the cache as
    they are and sends one usage report, for the key and the current
    context, exactly when reporting is enabled and the call returns a
    flag; a call that throws reports nothing. *)
Theorem single_usage_report (key : string) (defaultValue : option FlagValue)
    (env : Env) (w : World) :
  is_Some (flags (this w)) ->
  let r := single key defaultValue env w in
  this r.2 = this w /\
  cache r.2 = cache w /\
  usage r.2 =
    match r.1 with
    | inr _ =>
        if enableUsageReporting (this w)
        then usage w ++ [(key, context (this w))] else usage w
    | inl _ => usage w
    end.
Proof.
  intros Hl. unfold FlagManager.single, bind.
  rewrite (ensureRulesLoaded_noop env w Hl). unfold get_this.
  destruct (lookup_flag key _).
  - unfold reportUsage, ret.
    destruct (enableUsageReporting (this w)); simpl; auto.
  - destruct defaultValue as [dv|].
    + unfold reportUsage, ret.
      destruct (enableUsageReporting (this w)); simpl; auto.
    + unfold DefaultsCollection.has, DefaultsCollection.get.
      destruct (defaults (this w) !! key); [|simpl; auto].
      unfold reportUsage, ret.
      destruct (enableUsageReporting (this w)); simpl; auto.
Qed.

(** On a loaded manager [all] returns one flag per loaded flag, in
    load order and with the same keys and types, and changes nothing:
    it sends no usage report. *)
Theorem all_keeps_order (env : Env) (w : World) (fs : list Flag) :
  flags (this w) = Some fs ->
  exists l,
    all env w = (inr l, w) /\
    length l = length fs /\
    map getKey l = map getKey fs /\
    map getType l = map getType fs.
Proof.
  intros E. exists (map (evaluateFlag (this w)) fs).
  split; [|split; [|split]].
  - unfold FlagManager.all, bind.
    rewrite (ensureRulesLoaded_noop env w); [|eauto].
    unfold get_this, ret. rewrite E. reflexivity.
  - apply length_map.
  - rewrite map_map. apply map_ext. intros f. apply evaluateFlag_identity.
  - rewrite map_map. apply map_ext. intros f. apply evaluateFlag_identity.
Qed.

(** The first load of a manager takes the rules from the cache when
    the cache holds a text that parses to a document with flags: the
    fetch is not consulted and nothing is written. *)
Theorem first_load_from_cache (env : Env) (w : World) (text : string)
    (c' : C) (fs : list FlagData) :
  flags (this w) = None ->
  cache_get CACHE_KEY (now_read env) (cache w) = (Some text, c') ->
  JSON_parse text = Some (Some fs) ->
  let r := ensureRulesLoaded env w in
  r.1 = inr tt /\
  flags (this r.2) = Some (map fromObject fs) /\
  cache r.2 = c' /\
  usage r.2 = usage w /\
  context (this r.2) = context (this w) /\
  defaults (this r.2) = defaults (this w).
Proof.
  intros E Hget Hparse.
  unfold FlagManager.ensureRulesLoaded, bind, get_this. rewrite E.
  unfold cache_read. rewrite Hget, Hparse. simpl. repeat split; reflexivity.
Qed.

(** When the cache holds nothing under the key, or a text that does
    not parse to a document with flags, the first load is the load
    from the API, run after the read of the cache. *)
Theorem first_load_falls_back (env : Env) (w : World) :
  flags (this w) = None ->
  match (cache_get CACHE_KEY (now_read env) (cache w)).1 with
  | Some text => forall fs, JSON_parse text <> Some (Some fs)
  | None => True
  end ->
  ensureRulesLoaded env w =
  loadRulesFromApi env
    {| this := this w;
       cache := (cache_get CACHE_KEY (now_read env) (cache w)).2;
       usage := usage w |}.
Proof.
  intros E Hbad.
  unfold FlagManager.ensureRulesLoaded, bind, get_this. rewrite E.
  unfold cache_read.
  destruct (cache_get CACHE_KEY (now_read env) (cache w)) as [[text|] c'];
    simpl in *; [|reflexivity].
  destruct (JSON_parse text) as [[fs|]|]; [|reflexivity|reflexivity].
  exfalso. exact (Hbad fs eq_refl).
Qed.

(** A refresh that fails empties the flag list: afterwards [single]
    without a default answers from the defaults collection alone, also
    for a key that was loaded before the refresh. *)
Theorem failed_refresh_empties (env env' : Env) (w : World) (e : Error)
    (key : string) :
  api_getRules env = inl e ->
  (refreshRules env w).1 = inl e /\
  (single key None env' (refreshRules env w).2).1 =
    match defaults (this w) !! key with
    | Some dv => inr (createFlagFromDefault key dv)
    | None => inl (EvaluationError ("Flag not found: " +:+ key))
    end.
Proof.
  intros E.
  unfold FlagManager.refreshRules, FlagManager.loadRulesFromApi, try_catch, bind.
  rewrite E. simpl. split; [reflexivity|].
  unfold FlagManager.single, bind.
  rewrite ensureRulesLoaded_noop; [|simpl; eauto].
  unfold get_this. simpl.
  unfold DefaultsCollection.has, DefaultsCollection.get.
  destruct (defaults (this w) !! key); [|reflexivity].
  unfold reportUsage, ret. simpl.
  destruct (enableUsageReporting (this w)); reflexivity.
Qed.

End FlagManagerMore.

(** With the null cache the first load of a manager is always the
    load from the API. *)
Theorem null_cache_always_fetches `{JsNumber}
    (JSON_stringify : RulesResponse -> string)
    (JSON_parse : string -> option (option (list FlagData)))
    (env : FlagManager.Env) (w : FlagManager.World (C := unit)) :
  FlagManager.flags (FlagManager.this w) = None ->
  FlagManager.ensureRulesLoaded JSON_stringify JSON_parse env w =
  FlagManager.loadRulesFromApi JSON_stringify env w.
Proof.
  intros E. unfold FlagManager.ensureRulesLoaded, FlagManager.bind,
    FlagManager.get_this.
  rewrite E. unfold FlagManager.cache_read. simpl.
  destruct w as [m [] u]. reflexivity.
Qed.

(** A document loaded from the API through the in-memory cache is
    served to another manager on the same cache without a fetch, as
    long as the entry has not expired and parsing undoes
    serialization: the second manager gets the flags of the first. *)
Theorem cached_rules_round_trip `{JsNumber}
    (JSON_stringify : RulesResponse -> string)
    (JSON_parse : string -> option (option (list FlagData)))
    (env1 env2 : FlagManager.Env)
    (w0 : FlagManager.World (C := gmap string InMemoryCache.Item))
    (m2 : FlagManager.t) (usage2 : list (string * Context))
    (response : RulesResponse) :
  FlagManager.api_getRules env1 = inr response ->
  JSON_parse (JSON_stringify response) = Some (Some (rr_flags response)) ->
  FlagManager.flags m2 = None ->
  num_lt (num_add (FlagManager.now_write env1)
            (num_mul (FlagManager.cacheTtl (FlagManager.this w0)) (num_of_Z 1000)))
         (FlagManager.now_read env2) = false ->
  let w1 := (FlagManager.loadRulesFromApi JSON_stringify env1 w0).2 in
  let r := FlagManager.ensureRulesLoaded JSON_stringify JSON_parse env2
             {| FlagManager.this := m2; FlagManager.cache := FlagManager.cache w1;
                FlagManager.usage := usage2 |} in
  r.1 = inr tt /\
  FlagManager.flags (FlagManager.this r.2) = FlagManager.flags (FlagManager.this w1) /\
  FlagManager.flags (FlagManager.this w1) = Some (map fromObject (rr_flags response)).
Proof.
  intros Hfetch Hjson Hm2 Hfresh.
  unfold FlagManager.loadRulesFromApi, FlagManager.try_catch, FlagManager.bind.
  rewrite Hfetch. simpl.
  unfold FlagManager.ensureRulesLoaded, FlagManager.bind, FlagManager.get_this.
  simpl. rewrite Hm2.
  unfold FlagManager.cache_read. simpl.
  unfold InMemoryCache.get, InMemoryCache.set.
  rewrite lookup_insert_eq. simpl. rewrite Hfresh, Hjson. simpl. auto.
Qed.

(** ** More on the caches *)

Section InMemoryCacheMore.
Context `{JsNumber}.
Import InMemoryCache.

(** A read changes the store at most by deleting the entry it found
    expired: it adds nothing, and reading again at the same time gives
    the same answer and the same store. *)
Theorem memory_get_eviction (key : string) (now : number)
    (storage : gmap string Item) :
  get key now (get key now storage).2 = get key now storage /\
  (forall other item,
     (get key now storage).2 !! other = Some item ->
     storage !! other = Some item).
Proof.
  unfold get. destruct (storage !! key) as [item|] eqn:E; simpl.
  - destruct (expires item) as [e|] eqn:Ee.
    + destruct (num_lt e now) eqn:Hlt; simpl.
      * rewrite lookup_delete_eq. split; [reflexivity|].
        intros other i Hi. apply lookup_delete_Some in Hi. tauto.
      * rewrite E, Ee, Hlt. auto.
    + simpl. rewrite E, Ee. auto.
  - rewrite E. auto.
Qed.

(** An entry set with a ttl is returned by a read at a time that is
    not past its expiry, the time of the write plus a thousand times
    the ttl; a read past the expiry reports it absent and leaves the
    store as if the key had been deleted. *)
Theorem memory_set_then_get (key v : string) (ttl now later : number)
    (storage : gmap string Item) :
  let written := set key v (Some ttl) now storage in
  let expiry := num_add now (num_mul ttl (num_of_Z 1000)) in
  (num_lt expiry later = false -> get key later written = (Some v, written)) /\
  (num_lt expiry later = true ->
   get key later written = (None, base.delete key storage)).
Proof.
  unfold get, set. rewrite lookup_insert_eq. simpl.
  split; intros ->; [reflexivity|].
  rewrite delete_insert_eq. reflexivity.
Qed.

(** A second [set] on a key replaces the first entry whole, value and
    expiry; a deleted key and every key of a cleared cache read as
    absent; deleting twice is deleting once. *)
Theorem memory_overwrite_delete_clear (key : string) (now : number)
    (storage : gmap string Item) :
  (forall v1 v2 ttl1 ttl2 t1 t2,
     set key v2 ttl2 t2 (set key v1 ttl1 t1 storage) = set key v2 ttl2 t2 storage) /\
  get key now (delete key storage) = (None, delete key storage) /\
  has key now (delete key storage) = (false, delete key storage) /\
  get key now (clear storage) = (None, clear storage) /\
  delete key (delete key storage) = delete key storage.
Proof.
  split; [|split; [|split; [|split]]].
  - intros. unfold set. apply insert_insert_eq.
  - unfold get, delete. rewrite lookup_delete_eq. reflexivity.
  - unfold has, get, delete. rewrite lookup_delete_eq. reflexivity.
  - unfold get, clear. rewrite lookup_empty. reflexivity.
  - unfold delete. apply delete_delete_eq.
Qed.

End InMemoryCacheMore.

(** ** Maps filled by a loop of [set] *)

Section InsertLoops.
Context {A B : Type} (kf : B -> string) (vf : B -> A).

Lemma find_snoc (P : B -> bool) (l : list B) (x : B) :
  List.find P (l ++ [x]) =
  match List.find P l with
  | Some y => Some y
  | None => if P x then Some x else None
  end.
Proof.
  induction l as [|y l IH]; simpl; [reflexivity|].
  destruct (P y); [reflexivity | exact IH].
Qed.

(** After a loop of [set], a key holds what the last entry with that
    key gave it. *)
Lemma fold_left_insert_lookup (l : list B) (m : gmap string A) (k : string) :
  fold_left (fun m x => <[kf x := vf x]> m) l m !! k =
  match List.find (fun x => String.eqb (kf x) k) (rev l) with
  | Some x => Some (vf x)
  | None => m !! k
  end.
Proof.
  revert m. induction l as [|x l IH]; intros m; simpl; [reflexivity|].
  rewrite IH, find_snoc.
  destruct (List.find (fun x0 => String.eqb (kf x0) k) (rev l)); [reflexivity|].
  destruct (String.eqb_spec (kf x) k) as [<-|Hne].
  - apply lookup_insert_eq.
  - apply lookup_insert_ne. exact Hne.
Qed.

Lemma fold_left_insert_size (l : list B) (m : gmap string A) :
  List.NoDup (map kf l) ->
  (forall x, In x l -> m !! kf x = None) ->
  size (fold_left (fun m x => <[kf x := vf x]> m) l m) = (length l + size m)%nat.
Proof.
  revert m. induction l as [|x l IH]; intros m Hnd Hfresh; simpl; [reflexivity|].
  inversion Hnd as [|? ? Hx Hnd']; subst.
  rewrite IH.
  - rewrite map_size_insert_None; [lia|]. apply Hfresh. simpl. auto.
  - exact Hnd'.
  - intros y Hy. rewrite lookup_insert_ne.
    + apply Hfresh. simpl. auto.
    + intros Heq. apply Hx. rewrite Heq. apply in_map. exact Hy.
Qed.

End InsertLoops.

(** ** The defaults collection *)

Section DefaultsCollectionFacts.
Context `{JsNumber}.
Import DefaultsCollection.

(** The collection behaves as a map: a key reads back what was last
    set on it, other keys are not affected by [set] or [delete], [has]
    holds exactly of the keys that [get] finds, [delete] tells whether
    the key was there and removes it, and the size grows by one exactly
    when a new key is set. *)
Theorem defaults_map_laws (k : string) (v : FlagValue) (d : gmap string FlagValue) :
  get k (set k v d) = Some v /\
  (forall k', k <> k' -> get k' (set k v d) = get k' d) /\
  (has k d = true <-> is_Some (get k d)) /\
  (delete k d).1 = has k d /\
  get k (delete k d).2 = None /\
  (forall k', k <> k' -> get k' (delete k d).2 = get k' d) /\
  size (set k v d) = (if has k d then size d else S (size d)) /\
  size (clear d) = 0%nat.
Proof.
  unfold get, set, has, delete, size, clear. simpl.
  split; [apply lookup_insert_eq|].
  split; [intros k' Hne; apply lookup_insert_ne; exact Hne|].
  split.
  { destruct (d !! k); split; eauto; try discriminate. intros [x [=]]. }
  split; [reflexivity|].
  split; [apply lookup_delete_eq|].
  split; [intros k' Hne; apply lookup_delete_ne; exact Hne|].
  split; [|apply map_size_empty].
  destruct (d !! k) as [x|] eqn:E.
  - rewrite <- (insert_delete_id d k x E) at 2.
    rewrite <- (insert_delete_eq d k v).
    rewrite !map_size_insert_None by apply lookup_delete_eq. reflexivity.
  - apply map_size_insert_None. exact E.
Qed.

(** In a collection made from an object, a key holds the value of the
    last entry that has it, and a key that no entry has is absent; when
    the keys of the entries differ, the size is their number. *)
Theorem defaults_fromObject (obj : list (string * FlagValue)) :
  (forall k,
     get k (fromObject obj) =
     match List.find (fun kv => String.eqb (fst kv) k) (rev obj) with
     | Some kv => Some (snd kv)
     | None => None
     end) /\
  (List.NoDup (map fst obj) -> size (fromObject obj) = length obj).
Proof.
  unfold get, fromObject, set, empty, size. split.
  - intros k. rewrite (fold_left_insert_lookup fst snd obj ∅ k).
    rewrite lookup_empty. reflexivity.
  - intros Hnd. rewrite (fold_left_insert_size fst snd obj ∅ Hnd).
    + rewrite map_size_empty. lia.
    + intros x _. apply lookup_empty.
Qed.

End DefaultsCollectionFacts.

(** ** Contexts and attributes *)

Section ContextFacts.

Lemma fold_left_through_map {X Y Z : Type} (f : X -> Y -> X) (g : Z -> Y)
    (l : list Z) (x : X) :
  fold_left (fun acc z => f acc (g z)) l x = fold_left f (map g l) x.
Proof.
  revert x. induction l as [|z l IH]; intros x; simpl; [reflexivity | apply IH].
Qed.

Lemma fold_addAttribute (attrs : list Attribute) (c : Context) :
  attributes (fold_left addAttribute attrs c) =
    fold_left (fun m a => <[key a := a]> m) attrs (attributes c) /\
  ctx_type (fold_left addAttribute attrs c) = ctx_type c /\
  ctx_name (fold_left addAttribute attrs c) = ctx_name c /\
  ctx_identifier (fold_left addAttribute attrs c) = ctx_identifier c.
Proof.
  revert c. induction attrs as [|a attrs IH]; intros c; simpl; [auto|].
  destruct (IH (addAttribute c a)) as (H1 & H2 & H3 & H4).
  rewrite H1, H2, H3, H4. auto.
Qed.

(** An attribute gives back the values it was made from, in order,
    and [addValue] puts the new value last. *)
Theorem attribute_values (k v : string) (vs : list string) (a : Attribute) :
  getValues (new_Attribute k vs) = vs /\
  key (new_Attribute k vs) = k /\
  getValues (addValue a v) = getValues a ++ [v] /\
  key (addValue a v) = key a.
Proof.
  unfold getValues, new_Attribute, addValue. simpl.
  split; [|split; [reflexivity|split; [|reflexivity]]].
  - rewrite map_map. simpl. apply map_id.
  - apply map_app.
Qed.

(** Attribute keys are unique and the last one set wins: after
    [addAttribute] the key of the attribute reads as that attribute
    and other keys read as before; a context constructed from a list
    of attributes holds under each key the last attribute of the list
    with that key, and keeps the type, name and identifier given. *)
Theorem context_last_attribute_wins (c : Context) (a : Attribute)
    (type : string) (name identifier : option string) (attrs : list Attribute)
    (k : string) :
  getAttribute (addAttribute c a) k =
    (if String.eqb (key a) k then Some a else getAttribute c k) /\
  getAttribute (new_Context type name identifier attrs) k =
    List.find (fun x => String.eqb (key x) k) (rev attrs) /\
  hasAttribute (new_Context type name identifier attrs) k =
    existsb (fun x => String.eqb (key x) k) attrs /\
  ctx_type (new_Context type name identifier attrs) = type /\
  ctx_name (new_Context type name identifier attrs) = name /\
  ctx_identifier (new_Context type name identifier attrs) = identifier.
Proof.
  assert (Hget : getAttribute (new_Context type name identifier attrs) k =
                 List.find (fun x => String.eqb (key x) k) (rev attrs)).
  { unfold getAttribute, new_Context.
    destruct (fold_addAttribute attrs
                {| ctx_type := type; ctx_name := name;
                   ctx_identifier := identifier; attributes := ∅ |}) as (-> & _).
    simpl. rewrite (fold_left_insert_lookup key id attrs ∅ k), lookup_empty.
    destruct (List.find _ (rev attrs)); reflexivity. }
  split; [|split; [exact Hget|split]].
  - unfold getAttribute, addAttribute. simpl.
    destruct (String.eqb_spec (key a) k) as [<-|Hne].
    + apply lookup_insert_eq.
    + apply lookup_insert_ne. exact Hne.
  - unfold hasAttribute. fold (getAttribute (new_Context type name identifier attrs) k).
    rewrite Hget.
    destruct (List.find (fun x => String.eqb (key x) k) (rev attrs)) as [x|] eqn:Ef.
    + apply find_some in Ef as [Hin Hx]. apply in_rev in Hin.
      rewrite bool_decide_eq_true_2 by eauto.
      symmetry. apply existsb_exists. eauto.
    + rewrite bool_decide_eq_false_2 by (intros [x [=]]).
      symmetry. apply not_true_iff_false. intros Hex.
      apply existsb_exists in Hex as (x & Hin & Hx).
      assert (Hf : String.eqb (key x) k = false)
        by (apply (find_none _ _ Ef x), in_rev; rewrite rev_involutive; exact Hin).
      congruence.
  - unfold new_Context.
    destruct (fold_addAttribute attrs
                {| ctx_type := type; ctx_name := name;
                   ctx_identifier := identifier; attributes := ∅ |})
      as (_ & -> & -> & ->). auto.
Qed.

(** A context made from plain data holds under each key the values of
    the last attribute entry with that key, and no attribute at all
    when the data has no attribute list. *)
Theorem context_fromObject_attributes (data : ContextData) (k : string) :
  getAttribute (Context_fromObject data) k =
  match cd_attributes data with
  | Some attrs =>
      match List.find (fun ad => String.eqb (ca_key ad) k) (rev attrs) with
      | Some ad => Some (new_Attribute (ca_key ad) (map cv_value (ca_values ad)))
      | None => None
      end
  | None => None
  end.
Proof.
  unfold Context_fromObject, getAttribute.
  destruct (cd_attributes data) as [attrs|]; [|apply lookup_empty].
  set (g := fun ad => new_Attribute (ca_key ad) (map cv_value (ca_values ad))).
  rewrite (fold_left_through_map addAttribute g).
  destruct (fold_addAttribute (map g attrs)
              (new_Context (cd_type data) (cd_name data) (cd_identifier data) []))
    as (-> & _).
  simpl. rewrite <- (fold_left_through_map (fun m a => <[key a := a]> m) g).
  rewrite (fold_left_insert_lookup (fun ad => key (g ad)) g attrs ∅ k).
  rewrite lookup_empty. reflexivity.
Qed.

End ContextFacts.

(** ** The API client *)

Section ApiClientFacts.
Context `{JsNumber}.
Variable fetch : nat -> ApiClient.Request -> ApiClient.Thrown + ApiClient.Response.
Import ApiClient.

Abbreviation getCdnRulesUrl := (ApiClient.getCdnRulesUrl fetch).
Abbreviation fetchRulesOnce := (ApiClient.fetchRulesOnce fetch).
Abbreviation getRules_from := (ApiClient.getRules_from fetch).
Abbreviation getRules := (ApiClient.getRules fetch).

Lemma isValidRulesResponse_shape (data : Json) :
  isValidRulesResponse data = true ->
  exists props v items,
    data = JObject props /\
    prop "version" data = Some (JString v) /\
    prop "flags" data = Some (JArray items).
Proof.
  unfold isValidRulesResponse.
  destruct data as [| | | |items|props]; cbn; try discriminate.
  intros Hv. exists props.
  destruct (List.find (fun p => String.eqb (fst p) "version") props)
    as [[k [| | |v| |]]|]; cbn in *; try discriminate.
  destruct (List.find (fun p => String.eqb (fst p) "flags") props)
    as [[k' [| | | |items|]]|]; cbn in *; try discriminate.
  eauto.
Qed.

Lemma getCdnRulesUrl_net (c : t) (s : Net) :
  slept (getCdnRulesUrl c s).2 = slept s /\
  length (requests (getCdnRulesUrl c s).2) = S (length (requests s)).
Proof.
  unfold ApiClient.getCdnRulesUrl, do_fetch.
  destruct (fetch _ _) as [e|response]; simpl.
  - rewrite length_app. simpl. split; [reflexivity | lia].
  - assert (Hlen : length (requests s ++
                [{| url := baseUrl c +:+ RULES_PATH; method := "GET";
                    headers := client_headers c |}]) = S (length (requests s)))
      by (rewrite length_app; simpl; lia).
    destruct (negb (ok response)); [auto|].
    destruct (json response) as [e|metadata]; [auto|].
    destruct (negb (isValidMetadataResponse metadata)); [auto|].
    destruct (prop "data" metadata) as [dataObj|]; [|auto].
    destruct (prop "cdn" dataObj) as [[| | |cdn| |]|];
      destruct (prop "path" dataObj) as [[| | |path| |]|]; auto.
Qed.

Lemma fetchRulesOnce_net (c : t) (s : Net) :
  slept (fetchRulesOnce c s).2 = slept s /\
  (length (requests (fetchRulesOnce c s).2) <= length (requests s) + 2)%nat /\
  (forall data, (fetchRulesOnce c s).1 = inr data -> isValidRulesResponse data = true).
Proof.
  unfold ApiClient.fetchRulesOnce.
  pose proof (getCdnRulesUrl_net c s) as [Hs Hl].
  destruct (getCdnRulesUrl c s) as [[e|cdnUrl] s1]; simpl in *.
  - split; [exact Hs|]. split; [lia | discriminate].
  - unfold do_fetch.
    destruct (fetch _ _) as [e|rulesResponse]; simpl.
    + rewrite length_app. simpl. split; [exact Hs|]. split; [lia | discriminate].
    + destruct (negb (ok rulesResponse)); simpl.
      * rewrite length_app. simpl. split; [exact Hs|]. split; [lia | discriminate].
      * destruct (json rulesResponse) as [e|data]; simpl.
        -- rewrite length_app. simpl. split; [exact Hs|]. split; [lia | discriminate].
        -- destruct (isValidRulesResponse data) eqn:Hv; simpl.
           ++ rewrite length_app. simpl. split; [exact Hs|]. split; [lia|].
              intros d [= <-]. exact Hv.
           ++ rewrite length_app. simpl. split; [exact Hs|]. split; [lia | discriminate].
Qed.

Lemma getRules_from_outcome (c : t) (remaining attempt : nat)
    (lastError : option Thrown) (s : Net) :
  let r := getRules_from c attempt remaining lastError s in
  match r.1 with
  | inr data => isValidRulesResponse data = true
  | inl e =>
      (exists m, e = FetchRulesError m None) /\
      slept r.2 = slept s ++ retry_delays attempt remaining
  end /\
  (exists d rest, retry_delays attempt remaining = d ++ rest /\ slept r.2 = slept s ++ d) /\
  (length (requests r.2) <= length (requests s) + 2 * remaining)%nat.
Proof.
  revert attempt lastError s.
  induction remaining as [|remaining IH]; intros attempt lastError s.
  - simpl. split; [|split].
    + split; [eauto | symmetry; apply app_nil_r].
    + exists [], []. split; [reflexivity | symmetry; apply app_nil_r].
    + lia.
  - cbn [ApiClient.getRules_from retry_delays].
    set (pause := if (0 <? attempt)%nat
                  then [(RETRY_DELAY_MS * 2 ^ (Z.of_nat attempt - 1))%Z] else []).
    set (s0 := if (0 <? attempt)%nat
               then delay (RETRY_DELAY_MS * 2 ^ (Z.of_nat attempt - 1)) s else s).
    assert (Hs0 : slept s0 = slept s ++ pause /\ requests s0 = requests s).
    { unfold s0, pause. destruct (0 <? attempt)%nat; simpl;
        [auto | split; [symmetry; apply app_nil_r | reflexivity]]. }
    destruct Hs0 as [Hsl Hrq].
    pose proof (fetchRulesOnce_net c s0) as (Hs1 & Hl1 & Hv1).
    destruct (fetchRulesOnce c s0) as [[error|data] s1]; simpl in *.
    + specialize (IH (S attempt) (Some error) s1).
      destruct IH as (IH1 & (d & rest & Hd & Hsd) & IH3).
      split; [|split].
      * destruct (getRules_from c (S attempt) remaining (Some error) s1).1
          as [e|data]; [|exact IH1].
        destruct IH1 as [Hm Hsl']. split; [exact Hm|].
        rewrite Hsl', Hs1, Hsl, <- app_assoc. reflexivity.
      * exists (pause ++ d), rest. split.
        -- rewrite Hd, app_assoc. reflexivity.
        -- rewrite Hsd, Hs1, Hsl, <- app_assoc. reflexivity.
      * rewrite Hrq in Hl1. lia.
    + split; [|split].
      * apply Hv1. reflexivity.
      * exists pause, (retry_delays (S attempt) remaining).
        split; [reflexivity|]. rewrite Hs1. exact Hsl.
      * rewrite Hrq in Hl1. lia.
Qed.

(** [getRules] returns a document that is an object with a string
    [version] and an array [flags], or throws a [FetchRulesError]
    without status code, never another error.  It sends at most six
    requests and sleeps 100 ms and then 200 ms between attempts: a
    prefix of these when it returns, both when it throws. *)
Theorem getRules_outcome (c : t) (s : Net) :
  let r := getRules c s in
  match r.1 with
  | inr data =>
      exists props v items,
        data = JObject props /\
        prop "version" data = Some (JString v) /\
        prop "flags" data = Some (JArray items)
  | inl e =>
      (exists m, e = FetchRulesError m None) /\
      slept r.2 = slept s ++ [100; 200]%Z
  end /\
  (slept r.2 = slept s \/ slept r.2 = slept s ++ [100]%Z \/
   slept r.2 = slept s ++ [100; 200]%Z) /\
  (length (requests r.2) <= length (requests s) + 6)%nat.
Proof.
  pose proof (getRules_from_outcome c MAX_RETRIES 0 None s) as Hout.
  cbv zeta in Hout. destruct Hout as (H1 & H2 & H3).
  unfold ApiClient.getRules. cbv zeta.
  change (retry_delays 0 MAX_RETRIES) with [100; 200]%Z in H1.
  change (2 * MAX_RETRIES)%nat with 6%nat in H3.
  split; [|split].
  - destruct (getRules_from c 0 MAX_RETRIES None s).1 as [e|data].
    + exact H1.
    + apply isValidRulesResponse_shape. exact H1.
  - destruct H2 as (d & rest & Hd & Hs). rewrite Hs.
    change (retry_delays 0 MAX_RETRIES) with [100; 200]%Z in Hd.
    destruct d as [|x [|y [|z d]]].
    + left. apply app_nil_r.
    + injection Hd as <- _. right. left. reflexivity.
    + injection Hd as <- <- _. right. right. reflexivity.
    + discriminate.
  - exact H3.
Qed.

(** The attempts of [getRules] run in order and the first that
    succeeds decides: its document is returned without a further
    request.  A failed attempt, of whatever kind, is followed by the
    next one after the delay, and when the third fails the error
    thrown carries the message of the third failure. *)
Theorem getRules_retries (c : t) (s : Net) :
  let r1 := fetchRulesOnce c s in
  let r2 := fetchRulesOnce c (delay 100 r1.2) in
  let r3 := fetchRulesOnce c (delay 200 r2.2) in
  getRules c s =
  match r1.1 with
  | inr data => (inr data, r1.2)
  | inl _ =>
      match r2.1 with
      | inr data => (inr data, r2.2)
      | inl _ =>
          match r3.1 with
          | inr data => (inr data, r3.2)
          | inl e3 =>
              (inl (FetchRulesError
                      ("Failed to fetch rules after 3 attempts: " +:+ message e3)
                      None), r3.2)
          end
      end
  end.
Proof.
  unfold ApiClient.getRules, MAX_RETRIES.
  cbn [ApiClient.getRules_from Nat.ltb Nat.leb].
  destruct (fetchRulesOnce c s) as [[e1|d1] s1]; [|reflexivity].
  change (RETRY_DELAY_MS * 2 ^ (Z.of_nat 1 - 1))%Z with 100%Z.
  cbn [fst snd].
  destruct (fetchRulesOnce c (delay 100 s1)) as [[e2|d2] s2]; [|reflexivity].
  change (RETRY_DELAY_MS * 2 ^ (Z.of_nat 2 - 1))%Z with 200%Z.
  cbn [fst snd].
  destruct (fetchRulesOnce c (delay 200 s2)) as [[e3|d3] s3]; reflexivity.
Qed.

End ApiClientFacts.

(** ** Configuration and construction *)

Section ConfigFacts.
Context `{JsNumber}.
Import ConfigBuilder.

(** [build] fails exactly when the token is missing or empty, or the
    backend is the filesystem one and the directory is missing or
    empty, the token being checked first; when it succeeds, the
    configuration is the builder's with a logger filled in if there
    was none. *)
Theorem build_validates (b : Config) :
  (truthy (environmentToken b) = false ->
   build b = inl (ConfigurationError "Environment token is required")) /\
  (truthy (environmentToken b) = true ->
   cacheBackend b = Some "filesystem" -> truthy (cacheDirectory b) = false ->
   build b = inl (ConfigurationError "Cache directory is required for filesystem cache")) /\
  (forall c,
     build b = inr c ->
     truthy (environmentToken c) = true /\
     (cacheBackend c = Some "filesystem" -> truthy (cacheDirectory c) = true) /\
     logger c = Some (match logger b with Some l => l | None => NullLogger end) /\
     environmentToken c = environmentToken b /\
     cacheTtl c = cacheTtl b /\
     cacheBackend c = cacheBackend b /\
     cacheDirectory c = cacheDirectory b /\
     enableUsageReporting c = enableUsageReporting b /\
     apiEndpoint c = apiEndpoint b).
Proof.
  unfold build. split; [|split].
  - intros ->. reflexivity.
  - intros -> -> ->. reflexivity.
  - intros c. destruct (truthy (environmentToken b)) eqn:Ht; simpl; [|discriminate].
    destruct (cacheBackend b) as [backend|] eqn:Eb.
    + destruct (String.eqb_spec backend "filesystem") as [->|Hne]; simpl.
      * destruct (truthy (cacheDirectory b)) eqn:Hd; simpl; [|discriminate].
        intros [= <-]. destruct (logger b) eqn:El; simpl; rewrite ?Ht, ?Eb, ?El; repeat split; auto.
      * intros [= <-].
        destruct (logger b) eqn:El; simpl; rewrite ?Ht, ?Eb, ?El; repeat split; auto;
          intros [= ->]; contradiction.
    + simpl. intros [= <-].
      destruct (logger b) eqn:El; simpl; rewrite ?Ht, ?Eb, ?El; repeat split; auto; discriminate.
Qed.

(** A configuration that [build] returns for a builder with one of
    the three backends constructs a [Zenmanage] without error: its
    manager is not loaded yet, reports usage as configured, and caches
    for the configured ttl, or for 3600 seconds when the ttl is
    missing, zero or NaN. *)
Theorem built_config_constructs (b c : Config) :
  build b = inr c ->
  (exists backend, cacheBackend b = Some backend /\ In backend valid_backends) ->
  exists z,
    Zenmanage.new c = inr z /\
    FlagManager.flags (Zenmanage.flagManager z) = None /\
    FlagManager.enableUsageReporting (Zenmanage.flagManager z) =
      match enableUsageReporting c with Some e => e | None => false end /\
    FlagManager.cacheTtl (Zenmanage.flagManager z) =
      match cacheTtl c with
      | Some ttl => if Boolean_of_number ttl then ttl else num_of_Z 3600
      | None => num_of_Z 3600
      end /\
    Zenmanage.backend z =
      match cacheBackend c, cacheDirectory c with
      | Some "filesystem", Some d => Zenmanage.FileSystemBackend d
      | Some "null", _ => Zenmanage.NullBackend
      | _, _ => Zenmanage.MemoryBackend
      end.
Proof.
  unfold build. intros Hb (backend & Eb & Hin).
  destruct (truthy (environmentToken b)); simpl in Hb; [|discriminate].
  rewrite Eb in Hb. unfold Zenmanage.new, Zenmanage.createCache.
  unfold valid_backends in Hin. simpl in Hin.
  destruct Hin as [<- | [<- | [<- | []]]]; simpl in Hb.
  - injection Hb as <-.
    destruct (logger b); simpl; rewrite Eb; simpl; eexists; repeat split.
  - destruct (truthy (cacheDirectory b)) eqn:Hd; simpl in Hb; [|discriminate].
    injection Hb as <-.
    destruct (cacheDirectory b) as [d|] eqn:Ed; [|discriminate].
    simpl in Hd.
    destruct (logger b); simpl; rewrite Eb, Ed; simpl; rewrite Hd;
      eexists; repeat split.
  - injection Hb as <-.
    destruct (logger b); simpl; rewrite Eb; simpl; eexists; repeat split.
Qed.

Lemma read_steps_keep (env : gmap string string) (b : Config) :
  (cacheBackend (readToken env b) = cacheBackend b /\
   cacheTtl (readToken env b) = cacheTtl b) /\
  cacheBackend (readCacheTtl env b) = cacheBackend b /\
  cacheTtl (readCacheBackend env b) = cacheTtl b /\
  (cacheBackend (readCacheDir env b) = cacheBackend b /\
   cacheTtl (readCacheDir env b) = cacheTtl b) /\
  (cacheBackend (readUsageReporting env b) = cacheBackend b /\
   cacheTtl (readUsageReporting env b) = cacheTtl b) /\
  (cacheBackend (readApiEndpoint env b) = cacheBackend b /\
   cacheTtl (readApiEndpoint env b) = cacheTtl b).
Proof.
  unfold readToken, readCacheTtl, readCacheBackend, readCacheDir,
    readUsageReporting, readApiEndpoint.
  cbv zeta. repeat split; repeat case_match; reflexivity.
Qed.

Lemma fromEnvironment_backend (env : gmap string string) :
  exists backend,
    cacheBackend (fromEnvironment env) = Some backend /\ In backend valid_backends.
Proof.
  unfold fromEnvironment. cbv zeta.
  set (b1 := readCacheTtl env (readToken env create)).
  set (b2 := readCacheBackend env b1).
  destruct (read_steps_keep env (readUsageReporting env (readCacheDir env b2)))
    as (_ & _ & _ & _ & _ & -> & _).
  destruct (read_steps_keep env (readCacheDir env b2)) as (_ & _ & _ & _ & (-> & _) & _).
  destruct (read_steps_keep env b2) as (_ & _ & _ & (-> & _) & _).
  assert (H1 : cacheBackend b1 = Some "memory").
  { unfold b1.
    destruct (read_steps_keep env (readToken env create)) as (_ & -> & _).
    destruct (read_steps_keep env create) as ((-> & _) & _). reflexivity. }
  unfold b2, readCacheBackend. cbv zeta.
  destruct (env !! "ZENMANAGE_CACHE_BACKEND") as [be|] eqn:Ebe.
  - destruct (truthy (Some be) &&
              existsb (String.eqb be) ["memory"; "filesystem"; "null"]) eqn:Hok.
    + exists be. split; [reflexivity|].
      apply andb_prop in Hok as [_ Hin].
      apply existsb_exists in Hin as (x & Hx & Heq).
      apply String.eqb_eq in Heq. subst. exact Hx.
    + exists "memory". split; [exact H1 | simpl; auto].
  - exists "memory". split; [exact H1 | simpl; auto].
Qed.

Lemma fromEnvironment_ttl (env : gmap string string) :
  exists ttl,
    cacheTtl (fromEnvironment env) = Some ttl /\
    (ttl = num_of_Z 3600 \/ isNaN ttl = false).
Proof.
  unfold fromEnvironment. cbv zeta.
  set (b0 := readToken env create).
  set (b1 := readCacheTtl env b0).
  set (b2 := readCacheBackend env b1).
  destruct (read_steps_keep env (readUsageReporting env (readCacheDir env b2)))
    as (_ & _ & _ & _ & _ & _ & ->).
  destruct (read_steps_keep env (readCacheDir env b2)) as (_ & _ & _ & _ & (_ & ->) & _).
  destruct (read_steps_keep env b2) as (_ & _ & _ & (_ & ->) & _).
  unfold b2. destruct (read_steps_keep env b1) as (_ & _ & -> & _).
  assert (H0 : cacheTtl b0 = Some (num_of_Z 3600)).
  { unfold b0. destruct (read_steps_keep env create) as ((_ & ->) & _). reflexivity. }
  unfold b1, readCacheTtl. cbv zeta.
  destruct (env !! "ZENMANAGE_CACHE_TTL") as [t|] eqn:Et.
  - destruct (truthy (Some t) && negb (isNaN (Number_of_string t))) eqn:Hok.
    + exists (Number_of_string t). split; [reflexivity|]. right.
      apply andb_prop in Hok as [_ Hn]. apply negb_true_iff in Hn. exact Hn.
    + exists (num_of_Z 3600). split; [exact H0 | auto].
  - exists (num_of_Z 3600). split; [exact H0 | auto].
Qed.

(** Whatever the environment holds, the builder read from it has one
    of the three backends and a ttl that is a number: a backend or a
    ttl that does not validate is ignored and the default kept.  So a
    configuration built from the environment always constructs. *)
Theorem environment_builder_valid (env : gmap string string) :
  (exists backend,
     cacheBackend (fromEnvironment env) = Some backend /\ In backend valid_backends) /\
  (exists ttl,
     cacheTtl (fromEnvironment env) = Some ttl /\
     (ttl = num_of_Z 3600 \/ isNaN ttl = false)) /\
  (forall c, build (fromEnvironment env) = inr c -> exists z, Zenmanage.new c = inr z).
Proof.
  split; [apply fromEnvironment_backend|]. split; [apply fromEnvironment_ttl|].
  intros c Hc.
  destruct (fromEnvironment_backend env) as (backend & Eb & Hin).
  unfold build in Hc.
  destruct (truthy (environmentToken (fromEnvironment env))); simpl in Hc;
    [|discriminate].
  rewrite Eb in Hc. unfold Zenmanage.new, Zenmanage.createCache.
  unfold valid_backends in Hin. simpl in Hin.
  destruct Hin as [<- | [<- | [<- | []]]]; simpl in Hc.
  - injection Hc as <-.
    destruct (logger (fromEnvironment env)); simpl; rewrite Eb; simpl; eauto.
  - destruct (truthy (cacheDirectory (fromEnvironment env))) eqn:Hd;
      simpl in Hc; [|discriminate].
    injection Hc as <-.
    destruct (cacheDirectory (fromEnvironment env)) as [d|] eqn:Ed; [|discriminate].
    simpl in Hd.
    destruct (logger (fromEnvironment env)); simpl; rewrite Eb, Ed; simpl;
      rewrite Hd; eauto.
  - injection Hc as <-.
    destruct (logger (fromEnvironment env)); simpl; rewrite Eb; simpl; eauto.
Qed.

End ConfigFacts.

(** ** The files of the filesystem cache *)

Section FileNameFacts.
Import FileSystemCache.

Lemma string_ind3 (P : string -> Prop) :
  P "" ->
  (forall a, P (String a "")) ->
  (forall a b, P (String a (String b ""))) ->
  (forall a b c r, P r -> P (String a (String b (String c r)))) ->
  forall s, P s.
Proof.
  intros H0 H1 H2 H3.
  assert (Hall : forall s,
            P s /\ (forall a, P (String a s)) /\
            (forall a b, P (String a (String b s)))).
  { induction s as [|c r (IH0 & IH1 & IH2)].
    - auto.
    - split; [apply IH1|]. split; [intros a; apply IH2|].
      intros a b. apply H3. exact IH0. }
  intros s. apply Hall.
Qed.

Lemma get_In (s : string) (n : nat) (c : ascii) :
  String.get n s = Some c -> In c (list_ascii_of_string s).
Proof.
  revert n. induction s as [|a s IH]; intros n; simpl; [discriminate|].
  destruct n as [|n].
  - intros [= ->]. auto.
  - intros Hn. right. exact (IH n Hn).
Qed.

Lemma replaced_digit_safe (i : N) :
  safe_char
    (if (Ascii.eqb (digit i) "/" || Ascii.eqb (digit i) "+" || Ascii.eqb (digit i) "=")%bool
     then "_"%char else digit i) = true.
Proof.
  assert (Hall : forallb
            (fun c => safe_char
               (if (Ascii.eqb c "/" || Ascii.eqb c "+" || Ascii.eqb c "=")%bool
                then "_"%char else c))
            (list_ascii_of_string alphabet) = true) by reflexivity.
  unfold digit. destruct (String.get (N.to_nat i) alphabet) as [c|] eqn:E.
  - rewrite forallb_forall in Hall. apply Hall. exact (get_In _ _ _ E).
  - reflexivity.
Qed.

(** The name of the file of a key is made of letters, digits and
    underscores only, so it names a file inside the cache directory,
    whatever the key. *)
Theorem hash_safe (key : string) :
  forallb safe_char (list_ascii_of_string (hash key)) = true.
Proof.
  unfold hash. induction key as [|a|a b|a b c r IH] using string_ind3.
  - reflexivity.
  - cbn [base64 replace_specials list_ascii_of_string forallb].
    rewrite !replaced_digit_safe. reflexivity.
  - cbn [base64 replace_specials list_ascii_of_string forallb].
    rewrite !replaced_digit_safe. reflexivity.
  - cbn [base64 replace_specials list_ascii_of_string forallb].
    rewrite !replaced_digit_safe, IH. reflexivity.
Qed.

Lemma append_differs (s : string) : s +:+ ">" <> s +:+ "?".
Proof.
  induction s as [|a s IH]; simpl; [discriminate|].
  intros [= E]. exact (IH E).
Qed.

(** Distinct keys can share a file: the base64 digits [+] and [/] are
    both replaced by an underscore, so two keys that differ only in a
    last byte [>] or [?], after a number of bytes that is 2 modulo 3,
    have the same file, whatever the directory. *)
Theorem hash_collisions (s : string) (join : string -> string -> string)
    (cacheDir : string) :
  (String.length s mod 3 = 2)%nat ->
  s +:+ ">" <> s +:+ "?" /\
  getFilePath join cacheDir (s +:+ ">") = getFilePath join cacheDir (s +:+ "?").
Proof.
  intros Hlen. split; [apply append_differs|].
  unfold getFilePath. f_equal. f_equal. unfold hash.
  revert Hlen. induction s as [|a|a b|a b c r IH] using string_ind3.
  - discriminate.
  - discriminate.
  - intros _. reflexivity.
  - intros Hlen.
    change (String a (String b (String c r)) +:+ ">")
      with (String a (String b (String c (r +:+ ">")))).
    change (String a (String b (String c r)) +:+ "?")
      with (String a (String b (String c (r +:+ "?")))).
    cbn [base64 replace_specials].
    rewrite IH; [reflexivity|].
    cbn [String.length] in Hlen.
    replace (S (S (S (String.length r)))) with (String.length r + 1 * 3)%nat in Hlen
      by lia.
    rewrite Nat.Div0.mod_add in Hlen. exact Hlen.
Qed.

End FileNameFacts.

Section FileSystemStoreFacts.
Context `{JsNumber}.
Import FileSystemStore.
Variable stringify : CacheItem -> string.
Variable parse : string -> option CacheItem.

Abbreviation get := (FileSystemStore.get parse).
Abbreviation set := (FileSystemStore.set stringify).

Lemma fileName_json (key : string) : JsString.endsWith (fileName key) ".json" = true.
Proof. apply endsWith_spec. exists (FileSystemCache.hash key). reflexivity. Qed.

(** In a working directory, a value written under a key is read back
    under that key, and under every key with the same file, as long
    as the entry has not expired and parsing undoes the serialization
    of the item. *)
Theorem file_cache_set_then_get (key key' v : string) (ttl : option number)
    (now later : number) (c : t) :
  let item :=
    {| ci_value := v;
       ci_expires :=
         match ttl with
         | Some ttl => Some (num_add now (num_mul ttl (num_of_Z 1000)))
         | None => None
         end |} in
  isNode c = true ->
  is_Some (directory c) ->
  FileSystemCache.hash key' = FileSystemCache.hash key ->
  parse (stringify item) = Some item ->
  match ci_expires item with
  | Some e => num_lt e later = false
  | None => True
  end ->
  get key' later (set key v ttl now c) = (Some v, set key v ttl now c).
Proof.
  intros item Hnode [files Hdir] Hhash Hjson Hfresh.
  unfold FileSystemStore.get, FileSystemStore.set. rewrite Hnode, Hdir. simpl.
  unfold fileName. rewrite Hhash, lookup_insert_eq.
  fold item. rewrite Hjson.
  destruct (ci_expires item) as [e|]; [rewrite Hfresh|]; reflexivity.
Qed.

(** In a working directory [clear] leaves no entry to read, under any
    key and at any time, and keeps every file whose name does not end
    in [.json] as it is. *)
Theorem file_cache_clear (c : t) (files : gmap string string) :
  isNode c = true ->
  directory c = Some files ->
  (forall key now, get key now (clear c) = (None, clear c)) /\
  (exists files',
     directory (clear c) = Some files' /\
     forall name text,
       JsString.endsWith name ".json" = false ->
       files !! name = Some text -> files' !! name = Some text).
Proof.
  intros Hnode Hdir. unfold clear. rewrite Hnode, Hdir. simpl. split.
  - intros key now. unfold FileSystemStore.get. simpl.
    rewrite map_lookup_filter_None_2; [reflexivity|].
    right. intros text _. simpl. rewrite fileName_json. discriminate.
  - eexists. split; [reflexivity|].
    intros name text Hname Hfile. apply map_lookup_filter_Some. auto.
Qed.

(** Outside Node, or without the directory, the cache does nothing:
    reads find nothing, and writes, deletes and clears leave the state
    as it is.  A file that is missing or does not parse reads as
    absent and is left in place. *)
Theorem file_cache_degraded (key v : string) (ttl : option number)
    (now : number) (c : t) :
  (isNode c = false \/ directory c = None ->
   get key now c = (None, c) /\ set key v ttl now c = c /\
   delete key c = c /\ clear c = c) /\
  (forall files,
     directory c = Some files ->
     match files !! fileName key with
     | Some text => parse text = None
     | None => True
     end ->
     get key now c = (None, c)).
Proof.
  split.
  - unfold FileSystemStore.get, FileSystemStore.set, delete, clear.
    intros [-> | ->]; simpl; [auto|].
    destruct (isNode c); simpl; auto.
  - intros files Hdir Hbad. unfold FileSystemStore.get. rewrite Hdir.
    destruct (isNode c); simpl; [|reflexivity].
    destruct (files !! fileName key) as [text|]; [|reflexivity].
    rewrite Hbad. reflexivity.
Qed.

End FileSystemStoreFacts.

(** ** The further properties on the sample data *)

Section OnMoreSamples.
Import DecNumber Samples MoreSamples.

(** [country regex U.*] matches nothing. *)
Lemma unknown_operator_never_matches_witness :
  ~ In (operator clause_regex) (positive_operators ++ negated_operators) /\
  RuleEngine.evaluateClause clause_regex ctx_us = false.
Proof.
  assert (Hop : ~ In (operator clause_regex) (positive_operators ++ negated_operators)).
  { simpl. intros Hin.
    repeat (destruct Hin as [Hin | Hin]; [discriminate Hin|]). exact Hin. }
  split; [exact Hop|].
  exact (unknown_operator_never_matches clause_regex ctx_us Hop).
Defined.

(** The anonymous context gets the catch-all rule. *)
Lemma no_attributes_only_unconditional_witness :
  attributes anonymous = ∅ /\
  forall r,
    RuleEngine.evaluate [rule_us; rule_catch_all] anonymous = Some r ->
    (clauses r = None \/ clauses r = Some []) /\ criteria r = None.
Proof.
  split; [reflexivity|].
  exact (proj2 (no_attributes_only_unconditional [rule_us; rule_catch_all]
                  anonymous eq_refl)).
Defined.

Lemma catch_all_always_matches_witness :
  In rule_catch_all [rule_us; rule_catch_all] /\
  (clauses rule_catch_all = None \/ clauses rule_catch_all = Some []) /\
  criteria rule_catch_all = None /\
  exists r', RuleEngine.evaluate [rule_us; rule_catch_all] ctx_ca = Some r'.
Proof.
  assert (Hin : In rule_catch_all [rule_us; rule_catch_all]) by (right; left; reflexivity).
  split; [exact Hin|]. split; [left; reflexivity|]. split; [reflexivity|].
  exact (catch_all_always_matches [rule_us; rule_catch_all] ctx_ca rule_catch_all
           Hin (or_introl eq_refl) eq_refl).
Defined.

(** [plan equals premium] on a user with the plans basic and premium. *)
Lemma equals_operators_witness :
  getAttribute ctx_plans (attribute clause_plan_premium)
    = Some (new_Attribute "plan" ["basic"; "premium"]) /\
  clause_value clause_plan_premium = Some (CVString "premium") /\
  (RuleEngine.evaluateClause clause_plan_premium ctx_plans = true <->
   exists t,
     RuleEngine.target_of (CVString "premium") = Some t /\
     In t (getValues (new_Attribute "plan" ["basic"; "premium"]))).
Proof.
  split; [reflexivity|]. split; [reflexivity|].
  exact (proj1 (equals_operators clause_plan_premium ctx_plans
                  (new_Attribute "plan" ["basic"; "premium"]) (CVString "premium")
                  eq_refl eq_refl) eq_refl).
Defined.

(** [plan in [premium, enterprise]] on the same user. *)
Lemma in_operators_witness :
  getAttribute ctx_plans (attribute clause_plan_in)
    = Some (new_Attribute "plan" ["basic"; "premium"]) /\
  (RuleEngine.evaluateClause clause_plan_in ctx_plans = true <->
   exists v,
     In v (getValues (new_Attribute "plan" ["basic"; "premium"])) /\
     In v ["premium"; "enterprise"]).
Proof.
  split; [reflexivity|].
  exact (proj1 (in_operators clause_plan_in ctx_plans
                  (new_Attribute "plan" ["basic"; "premium"]) eq_refl)
           ["premium"; "enterprise"] eq_refl eq_refl).
Defined.

(** [email contains @acme.com] *)
Lemma substring_operators_witness :
  getAttribute ctx_email (attribute clause_email)
    = Some (new_Attribute "email" ["john@acme.com"]) /\
  clause_value clause_email = Some (CVString "@acme.com") /\
  (RuleEngine.evaluateClause clause_email ctx_email = true <->
   exists v p s,
     In v (getValues (new_Attribute "email" ["john@acme.com"])) /\
     v = p +:+ "@acme.com" +:+ s).
Proof.
  split; [reflexivity|]. split; [reflexivity|].
  exact (proj1 (substring_operators clause_email ctx_email
                  (new_Attribute "email" ["john@acme.com"]) "@acme.com"
                  eq_refl eq_refl) eq_refl).
Defined.

(** [tags not_equals beta] on a user whose [tags] has no value. *)
Lemma attribute_without_values_witness :
  getAttribute ctx_no_tags (attribute clause_tag_beta) = Some (new_Attribute "tags" []) /\
  getValues (new_Attribute "tags" []) = [] /\
  RuleEngine.evaluateClause clause_tag_beta ctx_no_tags = true.
Proof.
  split; [reflexivity|]. split; [reflexivity|].
  apply (proj2 (attribute_without_values clause_tag_beta ctx_no_tags
                  (new_Attribute "tags" []) eq_refl eq_refl)).
  left. reflexivity.
Defined.

Lemma isEnabled_boolean_flag_witness :
  getType flag_new_ui = "boolean" /\
  has_key "boolean" (envelope flag_new_ui) = true /\
  isEnabled flag_new_ui = asBool flag_new_ui.
Proof.
  split; [reflexivity|]. split; [reflexivity|].
  exact (proj1 (isEnabled_boolean_flag flag_new_ui eq_refl) eq_refl).
Defined.

(** [single] on the loaded sample manager. *)
Lemma single_usage_report_witness :
  is_Some (FlagManager.flags (FlagManager.this world)) /\
  FlagManager.usage
    (FlagManager.single stringify parse "new-ui" None env_down world).2
  = match (FlagManager.single stringify parse "new-ui" None env_down world).1 with
    | inr _ =>
        if FlagManager.enableUsageReporting (FlagManager.this world)
        then FlagManager.usage world ++
             [("new-ui", FlagManager.context (FlagManager.this world))]
        else FlagManager.usage world
    | inl _ => FlagManager.usage world
    end.
Proof.
  assert (Hl : is_Some (FlagManager.flags (FlagManager.this world)))
    by (exists [flag_new_ui]; reflexivity).
  split; [exact Hl|].
  exact (proj2 (proj2 (single_usage_report stringify parse "new-ui" None env_down
                         world Hl))).
Defined.

Lemma all_keeps_order_witness :
  FlagManager.flags (FlagManager.this world) = Some [flag_new_ui] /\
  exists l,
    FlagManager.all stringify parse env_down world = (inr l, world) /\
    length l = length [flag_new_ui] /\
    map getKey l = map getKey [flag_new_ui] /\
    map getType l = map getType [flag_new_ui].
Proof.
  split; [reflexivity|].
  exact (all_keeps_order stringify parse env_down world [flag_new_ui] eq_refl).
Defined.

(** The first load of a fresh manager on a cache that holds the
    document, while the API is down. *)
Lemma first_load_from_cache_witness :
  FlagManager.flags (FlagManager.this world_cached) = None /\
  cache_get FlagManager.CACHE_KEY (FlagManager.now_read env_down)
    (FlagManager.cache world_cached)
    = (Some (stringify document), FlagManager.cache world_cached) /\
  parse_known (stringify document) = Some (Some (rr_flags document)) /\
  (FlagManager.ensureRulesLoaded stringify parse_known env_down world_cached).1
    = inr tt /\
  FlagManager.flags
    (FlagManager.this
       (FlagManager.ensureRulesLoaded stringify parse_known env_down world_cached).2)
    = Some (map fromObject (rr_flags document)).
Proof.
  assert (Hget : cache_get FlagManager.CACHE_KEY (FlagManager.now_read env_down)
                   (FlagManager.cache world_cached)
                 = (Some (stringify document), FlagManager.cache world_cached))
    by reflexivity.
  split; [reflexivity|]. split; [exact Hget|]. split; [reflexivity|].
  destruct (first_load_from_cache stringify parse_known env_down world_cached
              (stringify document) (FlagManager.cache world_cached)
              (rr_flags document) eq_refl Hget eq_refl) as (H1 & H2 & _).
  split; [exact H1 | exact H2].
Defined.

(** The first load of a fresh manager on an empty cache. *)
Lemma first_load_falls_back_witness :
  FlagManager.flags (FlagManager.this fresh_world) = None /\
  (cache_get FlagManager.CACHE_KEY (FlagManager.now_read env_ok)
     (FlagManager.cache fresh_world)).1 = None /\
  FlagManager.ensureRulesLoaded stringify parse env_ok fresh_world =
  FlagManager.loadRulesFromApi stringify env_ok
    {| FlagManager.this := FlagManager.this fresh_world;
       FlagManager.cache :=
         (cache_get FlagManager.CACHE_KEY (FlagManager.now_read env_ok)
            (FlagManager.cache fresh_world)).2;
       FlagManager.usage := FlagManager.usage fresh_world |}.
Proof.
  split; [reflexivity|]. split; [reflexivity|].
  exact (first_load_falls_back stringify parse env_ok fresh_world eq_refl I).
Defined.

(** A refresh of the loaded sample manager while the API is down. *)
Lemma failed_refresh_empties_witness :
  FlagManager.api_getRules env_down = inl fetch_error /\
  (FlagManager.refreshRules stringify env_down world).1 = inl fetch_error /\
  (FlagManager.single stringify parse "new-ui" None env_down
     (FlagManager.refreshRules stringify env_down world).2).1
  = inl (EvaluationError "Flag not found: new-ui").
Proof.
  split; [reflexivity|].
  destruct (failed_refresh_empties stringify parse env_down env_down world
              fetch_error "new-ui" eq_refl) as [H1 H2].
  split; [exact H1|]. rewrite H2. reflexivity.
Defined.

(** The document loaded by one manager at 1005 ms with a ttl of 3600
    seconds is served from the cache to a fresh manager at 1000 ms
    of a later clock reading that is not past the expiry. *)
Lemma cached_rules_round_trip_witness :
  FlagManager.api_getRules env_ok = inr document /\
  parse_known (stringify document) = Some (Some (rr_flags document)) /\
  FlagManager.flags (FlagManager.new true (of_Z 60)) = None /\
  num_lt (num_add (FlagManager.now_write env_ok)
            (num_mul (FlagManager.cacheTtl (FlagManager.this world)) (num_of_Z 1000)))
         (FlagManager.now_read env_down) = false /\
  (FlagManager.ensureRulesLoaded (C := gmap string InMemoryCache.Item)
     stringify parse_known env_down
     {| FlagManager.this := FlagManager.new true (of_Z 60);
        FlagManager.cache :=
          FlagManager.cache (FlagManager.loadRulesFromApi stringify env_ok world).2;
        FlagManager.usage := [] |}).1 = inr tt.
Proof.
  split; [reflexivity|]. split; [reflexivity|]. split; [reflexivity|].
  split; [reflexivity|].
  exact (proj1 (cached_rules_round_trip stringify parse_known env_ok env_down world
                  (FlagManager.new true (of_Z 60)) [] document
                  eq_refl eq_refl eq_refl eq_refl)).
Defined.

(** A builder with only a token builds and constructs, on the
    in-memory cache. *)
Lemma built_config_constructs_witness :
  ConfigBuilder.build builder_token
    = inr (ConfigBuilder.withLogger ConfigBuilder.NullLogger builder_token) /\
  (exists backend,
     ConfigBuilder.cacheBackend builder_token = Some backend /\
     In backend valid_backends) /\
  exists z,
    Zenmanage.new (ConfigBuilder.withLogger ConfigBuilder.NullLogger builder_token)
      = inr z /\
    FlagManager.flags (Zenmanage.flagManager z) = None.
Proof.
  assert (Hb : exists backend,
            ConfigBuilder.cacheBackend builder_token = Some backend /\
            In backend valid_backends)
    by (exists "memory"; split; [reflexivity | left; reflexivity]).
  split; [reflexivity|]. split; [exact Hb|].
  destruct (built_config_constructs builder_token
              (ConfigBuilder.withLogger ConfigBuilder.NullLogger builder_token)
              eq_refl Hb) as (z & Hz & Hf & _).
  exists z. split; [exact Hz | exact Hf].
Defined.

(** The keys [aa>] and [aa?] share a file. *)
Lemma hash_collisions_witness :
  (String.length "aa" mod 3 = 2)%nat /\
  "aa>" <> "aa?" /\
  FileSystemCache.getFilePath join_slash "/tmp/cache" "aa>"
  = FileSystemCache.getFilePath join_slash "/tmp/cache" "aa?".
Proof.
  split; [reflexivity|].
  exact (hash_collisions "aa" join_slash "/tmp/cache" eq_refl).
Defined.

(** A value written under [aa>] is read back under [aa?]. *)
Lemma file_cache_set_then_get_witness :
  FileSystemStore.isNode empty_directory = true /\
  is_Some (FileSystemStore.directory empty_directory) /\
  FileSystemCache.hash "aa?" = FileSystemCache.hash "aa>" /\
  parse_item
    (stringify_item
       {| FileSystemStore.ci_value := "rules"; FileSystemStore.ci_expires := None |})
  = Some {| FileSystemStore.ci_value := "rules"; FileSystemStore.ci_expires := None |} /\
  FileSystemStore.get parse_item "aa?" (of_Z 5000)
    (FileSystemStore.set stringify_item "aa>" "rules" None (of_Z 1000) empty_directory)
  = (Some "rules",
     FileSystemStore.set stringify_item "aa>" "rules" None (of_Z 1000) empty_directory).
Proof.
  assert (Hdir : is_Some (FileSystemStore.directory empty_directory))
    by (exists ∅; reflexivity).
  split; [reflexivity|]. split; [exact Hdir|]. split; [reflexivity|].
  split; [reflexivity|].
  exact (file_cache_set_then_get stringify_item parse_item "aa>" "aa?" "rules" None
           (of_Z 1000) (of_Z 5000) empty_directory eq_refl Hdir eq_refl eq_refl I).
Defined.

(** The retry loop on a network that is down. *)
Example getRules_samples :
  let client := ApiClient.new "tok_test_123" None None in
  let down := fun (_ : nat) (_ : ApiClient.Request) =>
    inl (ApiClient.Other "fetch failed") : ApiClient.Thrown + ApiClient.Response in
  let start := {| ApiClient.requests := []; ApiClient.slept := [] |} in
  (ApiClient.getRules down client start).1
    = inl (FetchRulesError "Failed to fetch rules after 3 attempts: fetch failed" None) /\
  ApiClient.slept (ApiClient.getRules down client start).2 = [100; 200]%Z /\
  map ApiClient.url (ApiClient.requests (ApiClient.getRules down client start).2)
    = ["https://api.zenmanage.com/v1/flag-json";
       "https://api.zenmanage.com/v1/flag-json";
       "https://api.zenmanage.com/v1/flag-json"].
Proof. repeat split; reflexivity. Qed.

(** The file of the key of the rules. *)
Example file_name_samples :
  FileSystemCache.getFilePath join_slash "/tmp/cache" FlagManager.CACHE_KEY
    = "/tmp/cache/emVubWFuYWdlX3J1bGVz.json" /\
  FileSystemCache.hash "aa>" = "YWE_" /\
  FileSystemCache.hash "a" = "YQ__".
Proof. repeat split; reflexivity. Qed.

End OnMoreSamples.
